(** * Reward relabelling for replay-buffer samples

    A shallow embedding of [src/imitation/policies/replay_buffer_wrapper.py]:
    the delegating wrapper [ReplayBufferRewardWrapper] and its entropy-warmup
    subclass [ReplayBufferEntropyRewardWrapper], together with the
    collaborators they call.

    Conventions of the embedding:
    - Python [int] is [Z]; array elements are IEEE binary floating-point
      numbers (Rocq's primitive [float]).  Nothing proved below depends on
      the precision of the format.
    - A numpy array is flat row-major data with a shape; a torch tensor also
      carries the device it lives on.
    - A Python call that may raise returns a [result]; a method that mutates
      [self] and may raise returns the new [self] together with a [result],
      so that mutations made before the exception stay visible.
    - The random index draw of the underlying storage is an explicit argument
      ([draws]); each raw draw is reduced modulo the number of occupied slots.
    - One environment per buffer ([n_envs = 1]), the only configuration the
      entropy wrapper handles. *)

From Stdlib Require Import String.
From Stdlib Require Import List ZArith Bool Floats Lia.
Import ListNotations.
Local Open Scope string_scope.
Local Open Scope list_scope.

Set Implicit Arguments.

(** ** Exceptions and fallible calls *)

Inductive PyError : Type :=
| AssertionError (msg : string)
| NotImplementedError (msg : string)
| ValueError (msg : string)
| IndexError (msg : string)
| RuntimeError (msg : string)
| TypeError (msg : string).

Inductive result (A : Type) : Type :=
| Ok (a : A)
| Raise (e : PyError).

Arguments Ok {A} a.
Arguments Raise {A} e.

Definition bind {A B : Type} (r : result A) (f : A -> result B) : result B :=
  match r with
  | Ok a => f a
  | Raise e => Raise e
  end.

Declare Scope py_scope.
Delimit Scope py_scope with py.
Notation "x <- c ;; k" := (bind c (fun x => k))
  (at level 100, c at next level, right associativity) : py_scope.

(** [assert cond, msg] *)
Definition py_assert (cond : bool) (msg : string) : result unit :=
  if cond then Ok tt else Raise (AssertionError msg).

Definition is_ok {A : Type} (r : result A) : bool :=
  match r with Ok _ => true | Raise _ => false end.



(** ** Arrays and tensors *)

Inductive Device : Type :=
| cpu
| cuda (index : nat).

Record NdArray : Type := mkArray {
  a_data : list float;
  a_shape : list nat
}.

Record Tensor : Type := mkTensor {
  t_data : list float;
  t_shape : list nat;
  t_device : Device
}.

Definition numel (shape : list nat) : nat := fold_right Nat.mul 1 shape.

(** Number of scalars in one entry along the leading dimension. *)
Definition row_size (shape : list nat) : nat := numel (tl shape).

Definition zeros (shape : list nat) : NdArray :=
  mkArray (repeat 0%float (numel shape)) shape.

(** [tensor.cpu().numpy()] *)
Definition to_numpy (t : Tensor) : NdArray := mkArray (t_data t) (t_shape t).

(** [torch.as_tensor(array, device=device)] *)
Definition to_torch (dev : Device) (a : NdArray) : Tensor :=
  mkTensor (a_data a) (a_shape a) dev.

(** [tensor.to(device)] *)
Definition to_device (dev : Device) (t : Tensor) : Tensor :=
  mkTensor (t_data t) (t_shape t) dev.

(** [tensor.reshape(shape)]: the element count must be preserved. *)
Definition reshape (shape : list nat) (t : Tensor) : result Tensor :=
  if Nat.eqb (numel shape) (length (t_data t))
  then Ok (mkTensor (t_data t) shape (t_device t))
  else Raise (RuntimeError "shape is invalid for input size").

(** [tensor.unsqueeze(1)] *)
Definition unsqueeze1 (t : Tensor) : Tensor :=
  match t_shape t with
  | [] => mkTensor (t_data t) [1] (t_device t)
  | n :: rest => mkTensor (t_data t) (n :: 1 :: rest) (t_device t)
  end.

(** Leading-axis entry [i] of row-major data whose entries hold [rs] scalars. *)
Definition get_row (rs : nat) (data : list float) (i : nat) : list float :=
  firstn rs (skipn (i * rs) data).

(** All leading-axis entries of an array, in order. *)
Definition rows_of (rs : nat) (n : nat) (data : list float) : list (list float) :=
  map (get_row rs data) (seq 0 n).

(** Python index normalisation for an axis of length [n]: negative indices
    count from the end, anything outside [-n, n) raises [IndexError]. *)
Definition py_index (n : nat) (i : Z) : result nat :=
  if (0 <=? i)%Z && (i <? Z.of_nat n)%Z then Ok (Z.to_nat i)
  else if (- Z.of_nat n <=? i)%Z && (i <? 0)%Z then Ok (Z.to_nat (Z.of_nat n + i))
  else Raise (IndexError "index is out of bounds for axis 0").

(** [array[i] = row] *)
Definition set_row (a : NdArray) (i : Z) (row : list float) : result NdArray :=
  let rs := row_size (a_shape a) in
  (j <- py_index (hd 0 (a_shape a)) i ;;
   if Nat.eqb (length row) rs
   then Ok (mkArray (firstn (j * rs) (a_data a) ++ row ++ skipn ((j + 1) * rs) (a_data a))
                    (a_shape a))
   else Raise (ValueError "could not broadcast input array"))%py.

(** Python slice bound for [array[:stop]] on an axis of length [n]. *)
Definition py_slice_stop (n : nat) (stop : Z) : nat :=
  if (stop <? 0)%Z then Z.to_nat (Z.max 0 (Z.of_nat n + stop))
  else Nat.min (Z.to_nat stop) n.

(** [array[:stop]] *)
Definition slice_to (a : NdArray) (stop : Z) : NdArray :=
  let m := py_slice_stop (hd 0 (a_shape a)) stop in
  mkArray (firstn (m * row_size (a_shape a)) (a_data a)) (m :: tl (a_shape a)).

(** [array[inds, 0, :]] for a storage array of shape [(C, 1) + item]. *)
Definition take_rows (a : NdArray) (inds : list nat) : NdArray :=
  mkArray (flat_map (get_row (row_size (a_shape a)) (a_data a)) inds)
          (length inds :: tl (tl (a_shape a))).

(** ** Gym spaces and Python classes *)

Inductive Space : Type :=
| Box (shape : list nat)
| Discrete (n : nat)
| MultiDiscrete (nvec : list nat)
| MultiBinary (n : nat)
| Dict (keys : list string).

(** [isinstance(space, spaces.Dict)]; a [Dict] space is known here by its
    keys only. *)
Definition is_Dict (s : Space) : bool :=
  match s with Dict _ => true | _ => false end.

(** A class object: the storage class itself, a class derived from another
    one, or a class unrelated to the storage hierarchy. *)
Inductive PyClass : Type :=
| ClsReplayBuffer
| ClsDerived (name : string) (parent : PyClass)
| ClsOther (name : string).

(** [a is b] on class objects. *)
Fixpoint class_is (a b : PyClass) : bool :=
  match a, b with
  | ClsReplayBuffer, ClsReplayBuffer => true
  | ClsDerived n p, ClsDerived n' p' => String.eqb n n' && class_is p p'
  | ClsOther n, ClsOther n' => String.eqb n n'
  | _, _ => false
  end.

(** [issubclass(c, ReplayBuffer)] *)
Fixpoint issubclass_ReplayBuffer (c : PyClass) : bool :=
  match c with
  | ClsReplayBuffer => true
  | ClsDerived _ p => issubclass_ReplayBuffer p
  | ClsOther _ => false
  end.

Definition DictReplayBuffer : PyClass := ClsDerived "DictReplayBuffer" ClsReplayBuffer.

(** ** The underlying storage *)

Module SB3.

(** Modelled from the spec: the underlying storage collaborator, the
    [ReplayBuffer] of stable-baselines3, which is a dependency and not part of
    these sources.  It is the circular storage of the data model:
    pre-allocated zero arrays of capacity [C], a write cursor [pos] that wraps
    modulo [C], a [full] flag set once the cursor has wrapped, and the
    occupied range [[0, pos)] when not full and [[0, C)] otherwise.  The
    library's own validation of constructor arguments is not modelled. *)

(** What the constructor allocates on the object it initialises. *)
Record Arrays : Type := mkArrays {
  buffer_size : nat;
  obs_shape : list nat;
  action_dim : nat;
  device : Device;
  observations : NdArray;
  next_observations : NdArray;
  actions : NdArray;
  rewards : NdArray;
  dones : NdArray
}.

Record ReplayBuffer : Type := mkReplayBuffer {
  arrays : Arrays;
  pos : Z;
  full : bool
}.

Record Kwargs : Type := mkKwargs {
  kw_device : option Device
}.

(** Item shapes and action dimensions.  The wrappers refuse a [Dict]
    observation space before anything is allocated for it. *)
Definition get_obs_shape (s : Space) : list nat :=
  match s with
  | Box shape => shape
  | Discrete _ => [1]
  | MultiDiscrete nvec => [length nvec]
  | MultiBinary n => [n]
  | Dict keys => [length keys]
  end.

Definition get_action_dim (s : Space) : nat :=
  match s with
  | Box shape => numel shape
  | Discrete _ => 1
  | MultiDiscrete nvec => length nvec
  | MultiBinary n => n
  | Dict keys => length keys
  end.

(** The attributes [__init__] sets besides [pos] and [full]. *)
Definition allocate (size : Z) (observation_space action_space : Space)
    (kwargs : Kwargs) : Arrays :=
  let C := Z.to_nat (Z.max size 1) in
  let sh := get_obs_shape observation_space in
  let ad := get_action_dim action_space in
  mkArrays C sh ad
    (match kw_device kwargs with Some d => d | None => cpu end)
    (zeros (C :: 1 :: sh)) (zeros (C :: 1 :: sh))
    (zeros [C; 1; ad]) (zeros [C; 1]) (zeros [C; 1]).

Definition init (size : Z) (observation_space action_space : Space)
    (kwargs : Kwargs) : ReplayBuffer :=
  mkReplayBuffer (allocate size observation_space action_space kwargs) 0%Z false.

Record Transition : Type := mkTransition {
  tr_obs : list float;
  tr_next_obs : list float;
  tr_action : list float;
  tr_reward : float;
  tr_done : float
}.

Definition set_pos (rb : ReplayBuffer) (p : Z) : ReplayBuffer :=
  mkReplayBuffer (arrays rb) p (full rb).

Definition set_full (rb : ReplayBuffer) (f : bool) : ReplayBuffer :=
  mkReplayBuffer (arrays rb) (pos rb) f.

(** [add]: write the transition at the cursor, advance, wrap. *)
Definition add (rb : ReplayBuffer) (t : Transition) : result ReplayBuffer :=
  let a := arrays rb in
  (o <- set_row (observations a) (pos rb) (tr_obs t) ;;
   n <- set_row (next_observations a) (pos rb) (tr_next_obs t) ;;
   c <- set_row (actions a) (pos rb) (tr_action t) ;;
   r <- set_row (rewards a) (pos rb) [tr_reward t] ;;
   d <- set_row (dones a) (pos rb) [tr_done t] ;;
   let a' := mkArrays (buffer_size a) (obs_shape a) (action_dim a) (device a) o n c r d in
   let p := (pos rb + 1)%Z in
   if (p =? Z.of_nat (buffer_size a))%Z
   then Ok (mkReplayBuffer a' 0%Z true)
   else Ok (mkReplayBuffer a' p (full rb)))%py.

(** The batch type [ReplayBufferSamples]. *)
Record ReplayBufferSamples : Type := mkSamples {
  s_observations : Tensor;
  s_actions : Tensor;
  s_next_observations : Tensor;
  s_dones : Tensor;
  s_rewards : Tensor
}.

(** Number of slots a draw ranges over. *)
Definition upper_bound (rb : ReplayBuffer) : Z :=
  if full rb then Z.of_nat (buffer_size (arrays rb)) else pos rb.

(** The occupied observations: what the storage can hand out. *)
Definition occupied_observations (rb : ReplayBuffer) : NdArray :=
  if full rb then observations (arrays rb)
  else slice_to (observations (arrays rb)) (pos rb).

(** [sample]: indices uniform over the occupied slots (here: the raw [draws]
    reduced modulo [upper_bound]); drawing from an empty range raises. *)
Definition sample (rb : ReplayBuffer) (draws : list nat)
    : result ReplayBufferSamples :=
  let a := arrays rb in
  if (upper_bound rb <=? 0)%Z then Raise (ValueError "low >= high")
  else
    let inds := map (fun d => Nat.modulo d (Z.to_nat (upper_bound rb))) draws in
    let col x := mkArray (a_data x) [length inds; 1] in
    Ok (mkSamples
          (to_torch (device a) (take_rows (observations a) inds))
          (to_torch (device a) (take_rows (actions a) inds))
          (to_torch (device a) (take_rows (next_observations a) inds))
          (to_torch (device a) (col (take_rows (dones a) inds)))
          (to_torch (device a) (col (take_rows (rewards a) inds)))).

End SB3.

(** ** Helpers of [imitation.util] *)

Module util.

(** What [safe_to_tensor] accepts: a numpy array or a tensor. *)
Inductive ArrayLike : Type :=
| OfNumpy (a : NdArray)
| OfTorch (t : Tensor).

(** Modelled from the spec: [util.safe_to_tensor] is not in these sources.
    The relabelled reward is turned into a tensor holding the same values,
    before it is given the original reward field's shape and device; a value
    that is a tensor already is kept as it is. *)
Definition safe_to_tensor (x : ArrayLike) : Tensor :=
  match x with
  | OfNumpy a => to_torch cpu a
  | OfTorch t => t
  end.

Definition euclidean (x y : list float) : float :=
  PrimFloat.sqrt
    (fold_left (fun acc p => (acc + (fst p - snd p) * (fst p - snd p))%float)
               (combine x y) 0%float).

Fixpoint insert_sorted (x : float) (l : list float) : list float :=
  match l with
  | [] => [x]
  | y :: l' => if PrimFloat.leb x y then x :: l else y :: insert_sorted x l'
  end.

Definition sort_floats (l : list float) : list float :=
  fold_right insert_sorted [] l.

(** Distance from [x] to its [k]-th nearest neighbour in [pool]. *)
Definition kth_nearest_distance (pool : list (list float)) (k : Z)
    (x : list float) : result float :=
  if (1 <=? k)%Z && (k <=? Z.of_nat (length pool))%Z
  then Ok (nth (Z.to_nat (k - 1)) (sort_floats (map (euclidean x) pool)) 0%float)
  else Raise (RuntimeError "k is out of range for the neighbour pool").

Fixpoint collect {A : Type} (l : list (result A)) : result (list A) :=
  match l with
  | [] => Ok []
  | r :: l' => (a <- r ;; rest <- collect l' ;; Ok (a :: rest))%py
  end.

(** Modelled from the spec: [util.compute_state_entropy] is not in these
    sources.  For each entry of the batch [obs] it gives the distance to the
    entry's [k]-th nearest neighbour among the entries of [all_obs]; with
    fewer than [k] entries in [all_obs] there is no such neighbour and the
    call raises. *)
Definition compute_state_entropy (obs : Tensor) (all_obs : NdArray) (k : Z)
    : result Tensor :=
  let batch := rows_of (row_size (t_shape obs)) (hd 0 (t_shape obs)) (t_data obs) in
  let pool :=
    rows_of (row_size (a_shape all_obs)) (hd 0 (a_shape all_obs)) (a_data all_obs) in
  (ds <- collect (map (kth_nearest_distance pool k) batch) ;;
   Ok (mkTensor ds [length ds; 1] (t_device obs)))%py.

(** Modelled from the spec: [util.RunningMeanAndVar] is not in these sources.
    It tracks incrementally the mean and the standard deviation of the scalar
    stream it is fed ([shape=(1,)]: one channel); no zero-variance guard is
    specified for it. *)
Record RunningMeanAndVar : Type := mkStats {
  count : float;
  mean : float;
  M2 : float
}.

Definition RunningMeanAndVar_init : RunningMeanAndVar :=
  mkStats 0%float 0%float 0%float.

Definition update_one (s : RunningMeanAndVar) (x : float) : RunningMeanAndVar :=
  let n := (count s + 1)%float in
  let delta := (x - mean s)%float in
  let m := (mean s + delta / n)%float in
  mkStats n m (M2 s + delta * (x - m))%float.

Definition update (s : RunningMeanAndVar) (batch : Tensor) : RunningMeanAndVar :=
  fold_left update_one (t_data batch) s.

Definition std (s : RunningMeanAndVar) : float :=
  PrimFloat.sqrt (M2 s / count s)%float.

End util.

(** [tensor -= scalar] and [tensor /= scalar], element by element. *)
Definition isub (t : Tensor) (c : float) : Tensor :=
  mkTensor (map (fun x => (x - c)%float) (t_data t)) (t_shape t) (t_device t).

Definition idiv (t : Tensor) (c : float) : Tensor :=
  mkTensor (map (fun x => (x / c)%float) (t_data t)) (t_shape t) (t_device t).

(** A reward function: named batches in, a reward batch out; it may raise. *)
Definition RewardFn : Type :=
  NdArray -> NdArray -> NdArray -> NdArray -> result NdArray.

(** The keyword arguments [_samples_to_reward_fn_input] builds. *)
Record RewardFnInput : Type := mkInput {
  state : NdArray;
  action : NdArray;
  next_state : NdArray;
  done : NdArray
}.

Definition _samples_to_reward_fn_input (samples : SB3.ReplayBufferSamples)
    : RewardFnInput :=
  mkInput (to_numpy (SB3.s_observations samples))
          (to_numpy (SB3.s_actions samples))
          (to_numpy (SB3.s_next_observations samples))
          (to_numpy (SB3.s_dones samples)).

(** The call of [reward_fn] with these keyword arguments. *)
Definition call_reward_fn (f : RewardFn) (i : RewardFnInput) : result NdArray :=
  f (state i) (action i) (next_state i) (done i).

(** ** [ReplayBufferRewardWrapper] *)

Module ReplayBufferRewardWrapper.

(** The wrapper object: the storage it owns, the reward function, and the
    attributes the inherited constructor sets on the wrapper itself.  [pos]
    and [full] are properties of the class, so the object has no such
    attributes of its own. *)
Record t : Type := mk {
  replay_buffer : SB3.ReplayBuffer;
  reward_fn : RewardFn;
  inherited : SB3.Arrays
}.

(** The [pos] property and its setter. *)
Definition pos (self : t) : Z := SB3.pos (replay_buffer self).

Definition set_pos (self : t) (pos : Z) : t :=
  mk (SB3.set_pos (replay_buffer self) pos) (reward_fn self) (inherited self).

(** The [full] property and its setter. *)
Definition full (self : t) : bool := SB3.full (replay_buffer self).

Definition set_full (self : t) (full : bool) : t :=
  mk (SB3.set_full (replay_buffer self) full) (reward_fn self) (inherited self).

(** The keyword arguments kept for the inherited constructor: [device] and
    [n_envs]. *)
Definition _base_kwargs (kwargs : SB3.Kwargs) : SB3.Kwargs :=
  SB3.mkKwargs (SB3.kw_device kwargs).

(** The inherited constructor run on the wrapper, once [replay_buffer] and
    [reward_fn] are set: it allocates the wrapper's own arrays, and its
    assignments to [pos] and [full] go through the property setters. *)
Definition super_init (replay_buffer : SB3.ReplayBuffer) (reward_fn : RewardFn)
    (buffer_size : Z) (observation_space action_space : Space)
    (kwargs : SB3.Kwargs) : t :=
  let self :=
    mk replay_buffer reward_fn
       (SB3.allocate buffer_size observation_space action_space kwargs) in
  set_full (set_pos self 0%Z) false.

Definition __init__ (buffer_size : Z) (observation_space action_space : Space)
    (replay_buffer_class : PyClass) (reward_fn : RewardFn) (kwargs : SB3.Kwargs)
    : result t :=
  (_ <- py_assert (class_is replay_buffer_class ClsReplayBuffer)
                  "only ReplayBuffer is supported" ;;
   _ <- py_assert (negb (is_Dict observation_space)) "" ;;
   let replay_buffer := SB3.init buffer_size observation_space action_space kwargs in
   Ok (super_init replay_buffer reward_fn buffer_size observation_space
                  action_space (_base_kwargs kwargs)))%py.

Definition sample (self : t) (draws : list nat) : result SB3.ReplayBufferSamples :=
  (samples <- SB3.sample (replay_buffer self) draws ;;
   rewards <- call_reward_fn (reward_fn self) (_samples_to_reward_fn_input samples) ;;
   let shape := t_shape (SB3.s_rewards samples) in
   let device := t_device (SB3.s_rewards samples) in
   rewards_th <- reshape shape (util.safe_to_tensor (util.OfNumpy rewards)) ;;
   Ok (SB3.mkSamples
         (SB3.s_observations samples)
         (SB3.s_actions samples)
         (SB3.s_next_observations samples)
         (SB3.s_dones samples)
         (to_device device rewards_th)))%py.

Definition add (self : t) (transition : SB3.Transition) : result t :=
  (rb <- SB3.add (replay_buffer self) transition ;;
   Ok (mk rb (reward_fn self) (inherited self)))%py.



End ReplayBufferRewardWrapper.

(** ** [ReplayBufferEntropyRewardWrapper] *)

Module ReplayBufferEntropyRewardWrapper.

Module Base := ReplayBufferRewardWrapper.

Record t : Type := mk {
  super : Base.t;
  sample_count : Z;
  k : Z;
  entropy_stats : util.RunningMeanAndVar;
  entropy_as_reward_samples : Z
}.

Definition __init__ (buffer_size : Z) (observation_space action_space : Space)
    (replay_buffer_class : PyClass) (reward_fn : RewardFn)
    (entropy_as_reward_samples : Z) (k : option Z) (kwargs : SB3.Kwargs)
    : result t :=
  (base <- Base.__init__ buffer_size observation_space action_space
                         replay_buffer_class reward_fn kwargs ;;
   Ok (mk base 0%Z (match k with Some k => k | None => 5%Z end)
          util.RunningMeanAndVar_init entropy_as_reward_samples))%py.

Definition set_sample_count (self : t) (n : Z) : t :=
  mk (super self) n (k self) (entropy_stats self) (entropy_as_reward_samples self).

Definition set_entropy_stats (self : t) (s : util.RunningMeanAndVar) : t :=
  mk (super self) (sample_count self) (k self) s (entropy_as_reward_samples self).

Definition set_super (self : t) (b : Base.t) : t :=
  mk b (sample_count self) (k self) (entropy_stats self)
     (entropy_as_reward_samples self).

(** [self.observations] if [self.full], else [self.observations[: self.pos]]:
    the array is the wrapper's own attribute, the cursor and the flag are the
    properties. *)
Definition all_obs (self : t) : NdArray :=
  if Base.full (super self)
  then SB3.observations (Base.inherited (super self))
  else slice_to (SB3.observations (Base.inherited (super self)))
                (Base.pos (super self)).

Definition sample (self : t) (draws : list nat)
    : t * result SB3.ReplayBufferSamples :=
  let self := set_sample_count self (sample_count self + 1) in
  match Base.sample (super self) draws with
  | Raise e => (self, Raise e)
  | Ok samples =>
    if (sample_count self >? entropy_as_reward_samples self)%Z
    then (self, Ok samples)
    else
      match util.compute_state_entropy
              (unsqueeze1 (SB3.s_observations samples)) (all_obs self) (k self) with
      | Raise e => (self, Raise e)
      | Ok entropies =>
        let self :=
          set_entropy_stats self (util.update (entropy_stats self) entropies) in
        let entropies := isub entropies (util.mean (entropy_stats self)) in
        let entropies := idiv entropies (util.std (entropy_stats self)) in
        match reshape (t_shape (SB3.s_rewards samples))
                      (util.safe_to_tensor (util.OfTorch entropies)) with
        | Raise e => (self, Raise e)
        | Ok entropies_th =>
          (self,
           Ok (SB3.mkSamples
                 (SB3.s_observations samples)
                 (SB3.s_actions samples)
                 (SB3.s_next_observations samples)
                 (SB3.s_dones samples)
                 (to_device (t_device (SB3.s_rewards samples)) entropies_th)))
        end
      end
  end.

(** Inherited from the base wrapper. *)
Definition add (self : t) (transition : SB3.Transition) : result t :=
  (b <- Base.add (super self) transition ;; Ok (set_super self b))%py.

Definition pos (self : t) : Z := Base.pos (super self).
Definition set_pos (self : t) (p : Z) : t := set_super self (Base.set_pos (super self) p).
Definition full (self : t) : bool := Base.full (super self).
Definition set_full (self : t) (f : bool) : t :=
  set_super self (Base.set_full (super self) f).

End ReplayBufferEntropyRewardWrapper.

(** ** Sequences of calls on an entropy-warmup buffer *)

Module E := ReplayBufferEntropyRewardWrapper.
Module W := ReplayBufferRewardWrapper.

Inductive Call : Type :=
| CallAdd (transition : SB3.Transition)
| CallSample (draws : list nat)
| CallSetPos (pos : Z)
| CallSetFull (full : bool).

(** The buffer after one call; a call of [add] that raises is taken to leave
    the buffer as it was. *)
Definition step (self : E.t) (c : Call) : E.t :=
  match c with
  | CallAdd tr => match E.add self tr with Ok self' => self' | Raise _ => self end
  | CallSample draws => fst (E.sample self draws)
  | CallSetPos p => E.set_pos self p
  | CallSetFull f => E.set_full self f
  end.

Definition exec (self : E.t) (calls : list Call) : E.t := fold_left step calls self.

Definition is_sample (c : Call) : bool :=
  match c with CallSample _ => true | _ => false end.

Definition count_samples (calls : list Call) : Z :=
  Z.of_nat (length (filter is_sample calls)).

(** The two regimes of the relabelling, read off the counter as the last call
    of [sample] compared it with the budget. *)
Inductive Phase : Type := WARMUP | STEADY.

Definition phase (self : E.t) : Phase :=
  if (E.sample_count self >? E.entropy_as_reward_samples self)%Z
  then STEADY else WARMUP.

(** The four fields a relabelling leaves alone. *)
Definition same_transitions (a b : SB3.ReplayBufferSamples) : Prop :=
  SB3.s_observations a = SB3.s_observations b /\
  SB3.s_actions a = SB3.s_actions b /\
  SB3.s_next_observations a = SB3.s_next_observations b /\
  SB3.s_dones a = SB3.s_dones b.

(** A batch with its reward field replaced. *)
Definition with_rewards (s : SB3.ReplayBufferSamples) (r : Tensor)
    : SB3.ReplayBufferSamples :=
  SB3.mkSamples (SB3.s_observations s) (SB3.s_actions s)
                (SB3.s_next_observations s) (SB3.s_dones s) r.

(** Normalisation of a raw entropy batch by given statistics. *)
Definition normalized (stats : util.RunningMeanAndVar) (raw : list float)
    : list float :=
  map (fun x => ((x - util.mean stats) / util.std stats)%float) raw.

(** ** Concrete buffers used to evaluate the code *)

Module Example.

(** A reward function that labels every transition with 0. *)
Definition zero_reward : RewardFn :=
  fun state _ _ _ =>
    Ok (mkArray (repeat 0%float (hd 0 (a_shape state))) [hd 0 (a_shape state)]).

(** A reward function that raises. *)
Definition failing_reward : RewardFn :=
  fun _ _ _ _ => Raise (RuntimeError "reward network failed").

Definition transition (x : float) : SB3.Transition :=
  SB3.mkTransition [x] [(x + 1)%float] [0%float] 1%float 0%float.

Fixpoint add_all (self : E.t) (xs : list float) : result E.t :=
  match xs with
  | [] => Ok self
  | x :: xs' => (self' <- E.add self (transition x) ;; add_all self' xs')%py
  end.

(** Capacity 10, one-dimensional observations, warmup budget [N], [k = 2]. *)
Definition fresh (reward_fn : RewardFn) (N : Z) : result E.t :=
  E.__init__ 10 (Box [1]) (Box [1]) ClsReplayBuffer reward_fn N (Some 2%Z)
             (SB3.mkKwargs None).

(** The same buffer after the observations 1, 2, 3, 4, 5 were added. *)
Definition five (reward_fn : RewardFn) (N : Z) : result E.t :=
  (self <- fresh reward_fn N ;; add_all self [1; 2; 3; 4; 5]%float)%py.

(** [five zero_reward 3], evaluated. *)
Definition five_zero : E.t :=
  ltac:(let r := eval vm_compute in (five zero_reward 3) in
        match r with Ok ?self => exact self end).

(** The batch its first call of [sample] returns for the draws 0, 2, 4. *)
Definition warmup_batch : SB3.ReplayBufferSamples :=
  ltac:(let r := eval vm_compute in (snd (E.sample five_zero [0; 2; 4])) in
        match r with Ok ?out => exact out end).

End Example.

(** ** Buffers that differ in one attribute *)

(** The same wrapper with another reward function. *)
Definition set_reward_fn (self : W.t) (f : RewardFn) : W.t :=
  W.mk (W.replay_buffer self) f (W.inherited self).

(** The same storage with other recorded rewards. *)
Definition set_stored_rewards (rb : SB3.ReplayBuffer) (r : NdArray)
    : SB3.ReplayBuffer :=
  let a := SB3.arrays rb in
  SB3.mkReplayBuffer
    (SB3.mkArrays (SB3.buffer_size a) (SB3.obs_shape a) (SB3.action_dim a)
                  (SB3.device a) (SB3.observations a) (SB3.next_observations a)
                  (SB3.actions a) r (SB3.dones a))
    (SB3.pos rb) (SB3.full rb).

(** A reward function that labels every transition with 1. *)
Definition unit_reward : RewardFn :=
  fun state _ _ _ =>
    Ok (mkArray (repeat 1%float (hd 0 (a_shape state))) [hd 0 (a_shape state)]).

(** ** The environment ingredient

    A shallow embedding of [src/imitation/scripts/ingredients/environment.py]:
    the two context managers [make_venv] and [make_rollout_venv].  The world is
    the log of what was done to vector environments; a generator function
    with one [yield] inside [try ... finally] is the code before the [yield]
    together with the two ways of leaving the suspension, and the [with]
    statement of [contextlib.contextmanager] drives it. *)

Module environment.

Inductive Exception : Type :=
| KeyError (key : string)
| Exc (kind msg : string).

Inductive outcome (A : Type) : Type :=
| Returned (a : A)
| Raised (e : Exception).

Arguments Returned {A} a.
Arguments Raised {A} e.

(** A [dict] with string keys, and [d[key]]. *)
Definition PyDict (V : Type) : Type := list (string * V).

Fixpoint getitem {V : Type} (d : PyDict V) (key : string) : outcome V :=
  match d with
  | [] => Raised (KeyError key)
  | (k, v) :: d' => if String.eqb k key then Returned v else getitem d' key
  end.

Inductive VecEnv : Type := Venv (handle : nat).

Inductive EnvWrapper : Type :=
| RolloutInfoWrapper
| NamedWrapper (name : string).

(** The arguments of a call of [util.make_vec_env]. *)
Record MakeArgs : Type := mkArgs {
  gym_id : string;
  rng : nat;
  n_envs : Z;
  parallel : bool;
  max_episode_steps : option Z;
  log_dir : option string;
  env_make_kwargs : PyDict string;
  post_wrappers : option (list EnvWrapper);
  kwargs : PyDict string
}.

Inductive Event : Type :=
| EvMake (args : MakeArgs)
| EvClose (venv : VecEnv)
| EvUse (venv : VecEnv) (what : string).

Definition World : Type := list Event.

(** The collaborators: what [util.make_vec_env] and [venv.close] answer.
    [util.make_vec_env] is not in these sources and [close] is a method of
    the vector environment; both are taken as parameters. *)
Record Collaborators : Type := mkCollaborators {
  spawn : MakeArgs -> outcome VecEnv;
  closing : VecEnv -> outcome unit
}.

Definition make_vec_env (c : Collaborators) (args : MakeArgs) (w : World)
    : World * outcome VecEnv :=
  (w ++ [EvMake args], spawn c args).

Definition close (c : Collaborators) (venv : VecEnv) (w : World)
    : World * outcome unit :=
  (w ++ [EvClose venv], closing c venv).

(** A generator suspended at its [yield]: the value yielded, what happens
    when it is resumed, and what happens when an exception is thrown into it
    (the exception that leaves the generator). *)
Record Suspended (Y : Type) : Type := mkSuspended {
  yielded : Y;
  resume : World -> World * outcome unit;
  throw : Exception -> World -> World * Exception
}.

Definition Generator (Y : Type) : Type := World -> World * outcome (Suspended Y).

(** [try: yield venv  finally: venv.close()] *)
Definition yield_then_close (c : Collaborators) (venv : VecEnv) : Suspended VecEnv :=
  mkSuspended venv
    (close c venv)
    (fun e w =>
       match close c venv w with
       | (w', Returned _) => (w', e)
       | (w', Raised e') => (w', e')
       end).

(** [with cm as y: body]: the block's result, or the exception that leaves
    the statement. *)
Definition with_ {Y A : Type} (cm : Generator Y)
    (body : Y -> World -> World * outcome A) (w : World) : World * outcome A :=
  match cm w with
  | (w1, Raised e) => (w1, Raised e)
  | (w1, Returned s) =>
    match body (yielded s) w1 with
    | (w2, Returned a) =>
      match resume s w2 with
      | (w3, Returned _) => (w3, Returned a)
      | (w3, Raised e) => (w3, Raised e)
      end
    | (w2, Raised e) =>
      let (w3, e') := throw s e w2 in (w3, Raised e')
    end
  end.

(** The configuration entries the two functions capture. *)
Record Config : Type := mkConfig {
  environment_name : PyDict string;
  common : PyDict string;
  num_vec : Z;
  cfg_parallel : bool;
  cfg_max_episode_steps : option Z;
  cfg_env_make_kwargs : PyDict string;
  _rnd : nat
}.

(** The default configuration and the named configuration [fast]. *)
Definition config (environment_name common : PyDict string) (_rnd : nat) : Config :=
  mkConfig environment_name common 8 true None [] _rnd.

Definition fast (cfg : Config) : Config :=
  mkConfig (environment_name cfg) (common cfg) 2 false (Some 5%Z)
           (cfg_env_make_kwargs cfg) (_rnd cfg).

(** The arguments the two functions hand to [util.make_vec_env]: the
    rollout environment gets no log directory and one post-wrapper. *)
Definition venv_args (cfg : Config) (id dir : string) (kwargs : PyDict string)
    : MakeArgs :=
  mkArgs id (_rnd cfg) (num_vec cfg) (cfg_parallel cfg)
         (cfg_max_episode_steps cfg) (Some dir) (cfg_env_make_kwargs cfg)
         None kwargs.

Definition rollout_args (cfg : Config) (id : string) : MakeArgs :=
  mkArgs id (_rnd cfg) (num_vec cfg) (cfg_parallel cfg)
         (cfg_max_episode_steps cfg) None (cfg_env_make_kwargs cfg)
         (Some [RolloutInfoWrapper]) [].

Definition make_venv (c : Collaborators) (cfg : Config) (kwargs : PyDict string)
    : Generator VecEnv :=
  fun w =>
    match getitem (environment_name cfg) "gym_id" with
    | Raised e => (w, Raised e)
    | Returned id =>
      match getitem (common cfg) "log_dir" with
      | Raised e => (w, Raised e)
      | Returned dir =>
        match make_vec_env c (venv_args cfg id dir kwargs) w with
        | (w1, Raised e) => (w1, Raised e)
        | (w1, Returned venv) => (w1, Returned (yield_then_close c venv))
        end
      end
    end.

Definition make_rollout_venv (c : Collaborators) (cfg : Config)
    : Generator VecEnv :=
  fun w =>
    match getitem (environment_name cfg) "gym_id" with
    | Raised e => (w, Raised e)
    | Returned id =>
      match make_vec_env c (rollout_args cfg id) w with
      | (w1, Raised e) => (w1, Raised e)
      | (w1, Returned venv) => (w1, Returned (yield_then_close c venv))
      end
    end.

(** What leaves a block whose context manager closes [venv] on exit: the
    block's own outcome, unless closing raises. *)
Definition after_close {A : Type} (closed : outcome unit) (r : outcome A)
    : outcome A :=
  match closed with
  | Returned _ => r
  | Raised e => Raised e
  end.

(** A concrete setting: environments are numbered by the number of
    environments asked for, and closing never fails. *)
Definition sample_collaborators : Collaborators :=
  mkCollaborators
    (fun args => if (n_envs args <=? 0)%Z
                 then Raised (Exc "ValueError" "no environment")
                 else Returned (Venv (Z.to_nat (n_envs args))))
    (fun _ => Returned tt).

Definition sample_config : Config :=
  config [("gym_id", "seals/CartPole-v0")] [("log_dir", "output")] 0.

(** Two blocks: one that steps the environment and returns, one that raises
    after stepping it. *)
Definition stepping_block (venv : VecEnv) (w : World) : World * outcome nat :=
  (w ++ [EvUse venv "step"], Returned 1).

Definition failing_block (venv : VecEnv) (w : World) : World * outcome nat :=
  (w ++ [EvUse venv "step"], Raised (Exc "RuntimeError" "training diverged")).

(** A block that uses a training and a rollout environment. *)
Definition rollout_block (venv rollout : VecEnv) (w : World) : World * outcome nat :=
  (w ++ [EvUse venv "step"; EvUse rollout "rollout"], Returned 1).

(** A setting in which an environment without a log directory cannot be
    made; the others get handle 1. *)
Definition logging_only : Collaborators :=
  mkCollaborators
    (fun args => match log_dir args with
                 | Some _ => Returned (Venv 1)
                 | None => Raised (Exc "OSError" "no log directory")
                 end)
    (fun _ => Returned tt).

(** A setting in which environments with a log directory get handle 1 and
    the others handle 2. *)
Definition two_handles : Collaborators :=
  mkCollaborators
    (fun args => match log_dir args with
                 | Some _ => Returned (Venv 1)
                 | None => Returned (Venv 2)
                 end)
    (fun _ => Returned tt).

End environment.

(** ** Basic facts *)

Lemma class_is_eq : forall a b, class_is a b = true <-> a = b.
Proof.
  induction a as [|n p IH|n]; destruct b as [|n' p'|n']; simpl;
    split; intro H; try discriminate; try reflexivity.
  - apply andb_true_iff in H. destruct H as [Hn Hp].
    apply String.eqb_eq in Hn. apply IH in Hp. now subst.
  - inversion H; subst. rewrite String.eqb_refl. simpl. now apply IH.
  - apply String.eqb_eq in H. now subst.
  - inversion H; subst. apply String.eqb_refl.
Qed.

Lemma class_is_neq : forall a b, a <> b -> class_is a b = false.
Proof.
  intros a b H. destruct (class_is a b) eqn:E; [|reflexivity].
  apply class_is_eq in E. contradiction.
Qed.

Lemma bind_Ok_inv : forall (A B : Type) (r : result A) (f : A -> result B) b,
  bind r f = Ok b -> exists a, r = Ok a /\ f a = Ok b.
Proof. intros A B [a|e] f b H; simpl in H; [eauto | discriminate]. Qed.

Lemma numel_column : forall n, numel [n; 1] = n.
Proof. intro n. unfold numel. simpl. lia. Qed.

Lemma collect_length : forall (A : Type) (l : list (result A)) (out : list A),
  util.collect l = Ok out -> length out = length l.
Proof.
  induction l as [|r l IH]; simpl; intros out H.
  - inversion H. reflexivity.
  - destruct r as [a|e]; simpl in H; [|discriminate].
    destruct (util.collect l) as [rest|e]; simpl in H; [|discriminate].
    inversion H; subst. simpl. f_equal. now apply IH.
Qed.

(** ** What the storage hands out *)

Lemma SB3_sample_shapes : forall rb draws samples,
  SB3.sample rb draws = Ok samples ->
  t_shape (SB3.s_rewards samples) = [length draws; 1] /\
  t_shape (SB3.s_observations samples)
    = length draws :: tl (tl (a_shape (SB3.observations (SB3.arrays rb)))).
Proof.
  intros rb draws samples H. unfold SB3.sample in H.
  destruct (SB3.upper_bound rb <=? 0)%Z; [discriminate|].
  inversion H; subst; clear H. simpl. now rewrite length_map.
Qed.

Lemma SB3_sample_empty : forall rb draws,
  (SB3.upper_bound rb <= 0)%Z ->
  SB3.sample rb draws = Raise (ValueError "low >= high").
Proof.
  intros rb draws H. unfold SB3.sample.
  apply Z.leb_le in H. now rewrite H.
Qed.

(** ** The base wrapper's [sample], case by case *)

Lemma W_sample_storage_raises : forall self draws e,
  SB3.sample (W.replay_buffer self) draws = Raise e ->
  W.sample self draws = Raise e.
Proof. intros self draws e H. unfold W.sample. now rewrite H. Qed.

Lemma W_sample_reward_fn_raises : forall self draws samples e,
  SB3.sample (W.replay_buffer self) draws = Ok samples ->
  call_reward_fn (W.reward_fn self) (_samples_to_reward_fn_input samples) = Raise e ->
  W.sample self draws = Raise e.
Proof.
  intros self draws samples e H1 H2. unfold W.sample. rewrite H1. simpl.
  now rewrite H2.
Qed.

Lemma W_sample_returns : forall self draws samples r,
  SB3.sample (W.replay_buffer self) draws = Ok samples ->
  call_reward_fn (W.reward_fn self) (_samples_to_reward_fn_input samples) = Ok r ->
  length (a_data r) = numel (t_shape (SB3.s_rewards samples)) ->
  W.sample self draws
  = Ok (with_rewards samples
          (mkTensor (a_data r) (t_shape (SB3.s_rewards samples))
                    (t_device (SB3.s_rewards samples)))).
Proof.
  intros self draws samples r H1 H2 H3. unfold W.sample. rewrite H1. simpl.
  rewrite H2. simpl. unfold reshape. simpl. rewrite H3, Nat.eqb_refl. reflexivity.
Qed.

Lemma W_sample_inv : forall self draws out,
  W.sample self draws = Ok out ->
  exists samples r,
    SB3.sample (W.replay_buffer self) draws = Ok samples /\
    call_reward_fn (W.reward_fn self) (_samples_to_reward_fn_input samples) = Ok r /\
    length (a_data r) = numel (t_shape (SB3.s_rewards samples)) /\
    out = with_rewards samples
            (mkTensor (a_data r) (t_shape (SB3.s_rewards samples))
                      (t_device (SB3.s_rewards samples))).
Proof.
  intros self draws out H. unfold W.sample in H.
  apply bind_Ok_inv in H. destruct H as [samples [Hs H]].
  apply bind_Ok_inv in H. destruct H as [r [Hr H]].
  apply bind_Ok_inv in H. destruct H as [th [Hth H]].
  exists samples, r. repeat split; try assumption.
  - unfold reshape in Hth. simpl in Hth.
    destruct (Nat.eqb_spec (numel (t_shape (SB3.s_rewards samples)))
                           (length (a_data r))); [congruence | discriminate].
  - unfold reshape in Hth. simpl in Hth.
    destruct (Nat.eqb (numel (t_shape (SB3.s_rewards samples)))
                      (length (a_data r))); [|discriminate].
    inversion Hth; subst. inversion H; subst. reflexivity.
Qed.

Lemma W_sample_keeps_shapes : forall self draws out,
  W.sample self draws = Ok out ->
  t_shape (SB3.s_rewards out) = [length draws; 1] /\
  exists item, t_shape (SB3.s_observations out) = length draws :: item.
Proof.
  intros self draws out H. apply W_sample_inv in H.
  destruct H as [samples [r [Hs [_ [_ Hout]]]]]. subst out. simpl.
  apply SB3_sample_shapes in Hs. destruct Hs as [Hr Ho].
  rewrite Ho. split; [assumption | eauto].
Qed.

(** ** The raw entropy batch has one entry per sampled transition *)

Lemma rows_of_length : forall rs n data, length (rows_of rs n data) = n.
Proof. intros. unfold rows_of. now rewrite length_map, length_seq. Qed.

Lemma unsqueeze1_hd : forall t, t_shape t <> [] ->
  hd 0 (t_shape (unsqueeze1 t)) = hd 0 (t_shape t).
Proof.
  intros t H. unfold unsqueeze1. destruct (t_shape t); [contradiction | reflexivity].
Qed.

Lemma compute_state_entropy_length : forall obs pool k entropies,
  util.compute_state_entropy obs pool k = Ok entropies ->
  length (t_data entropies) = hd 0 (t_shape obs).
Proof.
  intros obs pool k entropies H. unfold util.compute_state_entropy in H.
  apply bind_Ok_inv in H. destruct H as [ds [Hds H]].
  inversion H; subst; clear H. simpl.
  apply collect_length in Hds. now rewrite Hds, length_map, rows_of_length.
Qed.

(** ** The entropy wrapper's [sample], case by case *)

(** The buffer as [sample] leaves it when no statistics are updated. *)
Lemma E_sample_counter : forall self draws,
  E.sample_count (fst (E.sample self draws)) = (E.sample_count self + 1)%Z /\
  E.entropy_as_reward_samples (fst (E.sample self draws))
    = E.entropy_as_reward_samples self /\
  E.k (fst (E.sample self draws)) = E.k self /\
  E.super (fst (E.sample self draws)) = E.super self.
Proof.
  intros self draws. unfold E.sample. simpl.
  destruct (W.sample (E.super self) draws) as [samples|e]; simpl; [|tauto].
  destruct (E.sample_count self + 1 >? E.entropy_as_reward_samples self)%Z;
    simpl; [tauto|].
  destruct (util.compute_state_entropy _ _ _) as [entropies|e]; simpl; [|tauto].
  destruct (reshape _ _); simpl; tauto.
Qed.

Lemma E_sample_base_raises : forall self draws e,
  W.sample (E.super self) draws = Raise e ->
  E.sample self draws
  = (E.set_sample_count self (E.sample_count self + 1), Raise e).
Proof. intros self draws e H. unfold E.sample. simpl. now rewrite H. Qed.

Lemma E_sample_steady : forall self draws,
  (E.sample_count self + 1 > E.entropy_as_reward_samples self)%Z ->
  E.sample self draws
  = (E.set_sample_count self (E.sample_count self + 1),
     W.sample (E.super self) draws).
Proof.
  intros self draws H. unfold E.sample. simpl.
  destruct (W.sample (E.super self) draws) as [samples|e]; [|reflexivity].
  apply Z.gt_lt, Z.gtb_lt in H. now rewrite H.
Qed.

Lemma E_sample_warmup : forall self draws samples raw,
  (E.sample_count self + 1 <= E.entropy_as_reward_samples self)%Z ->
  W.sample (E.super self) draws = Ok samples ->
  util.compute_state_entropy (unsqueeze1 (SB3.s_observations samples))
                             (E.all_obs self) (E.k self) = Ok raw ->
  let stats := util.update (E.entropy_stats self) raw in
  E.sample self draws
  = (E.set_entropy_stats
       (E.set_sample_count self (E.sample_count self + 1)) stats,
     Ok (with_rewards samples
           (mkTensor (normalized stats (t_data raw))
                     (t_shape (SB3.s_rewards samples))
                     (t_device (SB3.s_rewards samples))))).
Proof.
  intros self draws samples raw Hc Hs Hraw stats. unfold E.sample. simpl.
  rewrite Hs.
  assert (Hle : (E.sample_count self + 1 >? E.entropy_as_reward_samples self)%Z
                = false).
  { destruct (Z.gtb_spec (E.sample_count self + 1)
                         (E.entropy_as_reward_samples self)); [lia | reflexivity]. }
  rewrite Hle. unfold E.all_obs in Hraw |- *. simpl. rewrite Hraw. simpl.
  unfold reshape. simpl. rewrite !length_map.
  apply compute_state_entropy_length in Hraw.
  apply W_sample_keeps_shapes in Hs. destruct Hs as [Hr [item Ho]].
  assert (Hlen : length (t_data raw) = length draws).
  { rewrite Hraw. unfold unsqueeze1. rewrite Ho. reflexivity. }
  rewrite Hr, numel_column, Hlen, Nat.eqb_refl.
  unfold with_rewards, normalized, to_device. simpl. rewrite map_map. reflexivity.
Qed.

Lemma E_sample_warmup_raises : forall self draws samples e,
  (E.sample_count self + 1 <= E.entropy_as_reward_samples self)%Z ->
  W.sample (E.super self) draws = Ok samples ->
  util.compute_state_entropy (unsqueeze1 (SB3.s_observations samples))
                             (E.all_obs self) (E.k self) = Raise e ->
  E.sample self draws
  = (E.set_sample_count self (E.sample_count self + 1), Raise e).
Proof.
  intros self draws samples e Hc Hs Hraw. unfold E.sample. simpl. rewrite Hs.
  destruct (Z.gtb_spec (E.sample_count self + 1)
                       (E.entropy_as_reward_samples self)); [lia|].
  unfold E.all_obs in Hraw |- *. simpl. now rewrite Hraw.
Qed.

Lemma E_sample_warmup_inv : forall self draws out,
  (E.sample_count self + 1 <= E.entropy_as_reward_samples self)%Z ->
  snd (E.sample self draws) = Ok out ->
  exists samples raw,
    W.sample (E.super self) draws = Ok samples /\
    util.compute_state_entropy (unsqueeze1 (SB3.s_observations samples))
                               (E.all_obs self) (E.k self) = Ok raw /\
    E.entropy_stats (fst (E.sample self draws))
      = util.update (E.entropy_stats self) raw /\
    out = with_rewards samples
            (mkTensor
               (normalized (util.update (E.entropy_stats self) raw) (t_data raw))
               (t_shape (SB3.s_rewards samples))
               (t_device (SB3.s_rewards samples))).
Proof.
  intros self draws out Hc Hout.
  destruct (W.sample (E.super self) draws) as [samples|e] eqn:Hs.
  - destruct (util.compute_state_entropy
                (unsqueeze1 (SB3.s_observations samples))
                (E.all_obs self) (E.k self)) as [raw|e] eqn:Hraw.
    + pose proof (E_sample_warmup self draws Hc Hs Hraw) as H. simpl in H.
      rewrite H in Hout |- *. simpl in *. inversion Hout; subst.
      exists samples, raw. repeat split; auto.
    + rewrite (E_sample_warmup_raises self draws Hc Hs Hraw) in Hout.
      discriminate.
  - rewrite (E_sample_base_raises self draws Hs) in Hout. discriminate.
Qed.

(** ** Invariants of call sequences *)

Lemma step_counter : forall self c,
  E.sample_count (step self c)
  = (E.sample_count self + (if is_sample c then 1 else 0))%Z /\
  E.entropy_as_reward_samples (step self c) = E.entropy_as_reward_samples self.
Proof.
  intros self [tr|draws|p|f]; simpl.
  - unfold E.add. destruct (W.add (E.super self) tr); simpl; split; lia.
  - destruct (E_sample_counter self draws) as [Hc [Hn _]]. now rewrite Hc, Hn.
  - split; lia.
  - split; lia.
Qed.

Lemma exec_counter : forall calls self,
  E.sample_count (exec self calls) = (E.sample_count self + count_samples calls)%Z /\
  E.entropy_as_reward_samples (exec self calls) = E.entropy_as_reward_samples self.
Proof.
  induction calls as [|c calls IH]; intro self.
  - unfold count_samples. simpl. split; lia.
  - simpl. destruct (IH (step self c)) as [Hc Hn].
    destruct (step_counter self c) as [Hc1 Hn1].
    unfold exec in *. rewrite Hc, Hn, Hc1, Hn1. split; [|reflexivity].
    unfold count_samples. simpl. destruct (is_sample c); simpl length; lia.
Qed.

Lemma count_samples_nonneg : forall calls, (0 <= count_samples calls)%Z.
Proof. intro calls. unfold count_samples. lia. Qed.

(** No call assigns the wrapper's own arrays. *)
Lemma step_inherited : forall self c,
  W.inherited (E.super (step self c)) = W.inherited (E.super self).
Proof.
  intros self [tr|draws|p|f]; simpl; try reflexivity.
  - unfold E.add, W.add.
    destruct (SB3.add (W.replay_buffer (E.super self)) tr); reflexivity.
  - destruct (E_sample_counter self draws) as [_ [_ [_ Hs]]]. now rewrite Hs.
Qed.

Lemma exec_inherited : forall calls self,
  W.inherited (E.super (exec self calls)) = W.inherited (E.super self).
Proof.
  induction calls as [|c calls IH]; intro self; [reflexivity|].
  unfold exec in *. simpl. now rewrite IH, step_inherited.
Qed.

Lemma init_inherited : forall size os acts cls rf kw self,
  W.__init__ size os acts cls rf kw = Ok self ->
  SB3.observations (W.inherited self)
  = zeros (Z.to_nat (Z.max size 1) :: 1 :: SB3.get_obs_shape os).
Proof.
  intros size os acts cls rf kw self H. unfold W.__init__ in H.
  apply bind_Ok_inv in H. destruct H as [_ [_ H]].
  apply bind_Ok_inv in H. destruct H as [_ [_ H]].
  inversion H; subst. reflexivity.
Qed.

Lemma firstn_repeat : forall (A : Type) (x : A) m n,
  firstn m (repeat x n) = repeat x (Nat.min m n).
Proof.
  intros A x. induction m as [|m IH]; intros [|n]; simpl; try reflexivity.
  now rewrite IH.
Qed.

(** Whatever was added, the neighbour pool of a constructed buffer holds
    zeros only. *)
Lemma all_obs_zeros : forall size os acts cls rf N k kw self calls,
  E.__init__ size os acts cls rf N k kw = Ok self ->
  exists n, a_data (E.all_obs (exec self calls)) = repeat 0%float n.
Proof.
  intros size os acts cls rf N k kw self calls H. unfold E.__init__ in H.
  apply bind_Ok_inv in H. destruct H as [base [Hb H]].
  inversion H; subst; clear H.
  apply init_inherited in Hb. unfold E.all_obs.
  rewrite exec_inherited. simpl. rewrite Hb.
  destruct (W.full _).
  - eexists. reflexivity.
  - unfold slice_to, zeros. simpl a_data. rewrite firstn_repeat. eexists. reflexivity.
Qed.

(** * The claims *)

(** ** C2: warmup for calls 1..N, steady state afterwards *)

(** C2.  Take a buffer as its constructor returns it, with warmup budget [N],
    and any sequence of calls made on it since.  In the next call of [sample]
    the counter goes up by exactly one, so it equals the number of the call.
    While that number is at most [N], a returned batch carries the normalised
    entropy as its reward (and a batch is returned whenever the base wrapper
    and the entropy estimate produce one); once it exceeds [N], the call
    returns exactly what the base wrapper's [sample] returns, and every later
    state is in the steady phase again: there is no way back to warmup. *)
Theorem C2_warmup_then_steady :
  forall size os acts cls rf N k kw self (calls : list Call) (draws : list nat),
  E.__init__ size os acts cls rf N k kw = Ok self ->
  let before := exec self calls in
  let number := (count_samples calls + 1)%Z in
  let after := fst (E.sample before draws) in
  let returned := snd (E.sample before draws) in
  let entropy_batch samples raw :=
    with_rewards samples
      (mkTensor (normalized (util.update (E.entropy_stats before) raw) (t_data raw))
                (t_shape (SB3.s_rewards samples))
                (t_device (SB3.s_rewards samples))) in
  let raw_entropy samples :=
    util.compute_state_entropy (unsqueeze1 (SB3.s_observations samples))
                               (E.all_obs before) (E.k before) in
  E.sample_count before = (number - 1)%Z /\
  E.sample_count after = number /\
  ((number <= N)%Z ->
     phase after = WARMUP /\
     (forall samples raw,
        W.sample (E.super before) draws = Ok samples ->
        raw_entropy samples = Ok raw ->
        returned = Ok (entropy_batch samples raw)) /\
     (forall out, returned = Ok out ->
        exists samples raw,
          W.sample (E.super before) draws = Ok samples /\
          raw_entropy samples = Ok raw /\
          out = entropy_batch samples raw)) /\
  ((number > N)%Z ->
     returned = W.sample (E.super before) draws /\
     forall more, phase (exec after more) = STEADY).
Proof.
  intros size os acts cls rf N k kw self calls draws Hinit
         before number after returned entropy_batch raw_entropy.
  assert (H0 : E.sample_count self = 0%Z /\ E.entropy_as_reward_samples self = N).
  { unfold E.__init__ in Hinit. apply bind_Ok_inv in Hinit.
    destruct Hinit as [base [_ H]]. inversion H; subst. split; reflexivity. }
  destruct H0 as [Hc0 HN0].
  destruct (exec_counter calls self) as [Hc HN]. fold before in Hc, HN.
  rewrite Hc0 in Hc. rewrite HN0 in HN. simpl in Hc.
  destruct (E_sample_counter before draws) as [Hc' [HN' _]].
  fold after in Hc', HN'. rewrite Hc in Hc'. rewrite HN in HN'.
  split; [subst number; lia|]. split; [exact Hc'|]. split.
  - intro Hle.
    assert (Hb : (E.sample_count before + 1 <= E.entropy_as_reward_samples before)%Z)
      by (rewrite Hc, HN; exact Hle).
    split; [|split].
    + unfold phase. rewrite Hc', HN'.
      destruct (Z.gtb_spec (count_samples calls + 1) N); [|reflexivity].
      subst number. lia.
    + intros samples raw Hs Hraw. unfold returned.
      now rewrite (E_sample_warmup before draws Hb Hs Hraw).
    + intros out Hout.
      destruct (E_sample_warmup_inv before draws Hb Hout)
        as [samples [raw [Hs [Hraw [_ Heq]]]]].
      exists samples, raw. auto.
  - intro Hgt.
    assert (Hb : (E.sample_count before + 1 > E.entropy_as_reward_samples before)%Z)
      by (rewrite Hc, HN; exact Hgt).
    split.
    + unfold returned. now rewrite (E_sample_steady before draws Hb).
    + intro more. destruct (exec_counter more after) as [Hm HNm].
      unfold phase. rewrite Hm, HNm, Hc', HN'.
      pose proof (count_samples_nonneg more) as Hpos.
      destruct (Z.gtb_spec (count_samples calls + 1 + count_samples more) N);
        [reflexivity|]. subst number. lia.
Qed.

(** With [N = 3], two earlier calls of [sample] on a buffer holding five
    transitions: the next call is number 3 and leaves the counter at 3. *)
Lemma C2_warmup_then_steady_witness :
  exists self,
    Example.fresh Example.zero_reward 3 = Ok self /\
    let calls :=
      map CallAdd (map Example.transition [1; 2; 3; 4; 5]%float)
      ++ [CallSample [0]; CallSample [1]] in
    E.sample_count (exec self calls) = (3 - 1)%Z /\
    E.sample_count (fst (E.sample (exec self calls) [0; 2; 4])) = 3%Z.
Proof.
  eexists. split; [reflexivity|].
  intro calls.
  pose proof (C2_warmup_then_steady
                10 (Box [1]) (Box [1]) ClsReplayBuffer Example.zero_reward 3
                (Some 2%Z) (SB3.mkKwargs None) calls [0; 2; 4] eq_refl) as H.
  exact (conj (proj1 H) (proj1 (proj2 H))).
Defined.

(** ** C10: the counter advances even when the call raises *)

(** C10.  [sample] increments the counter before it delegates: after every
    call the counter is one higher, and when the storage's [sample] or the
    reward function raises, the exception reaches the caller from a buffer
    whose only change is that increment. *)
Theorem C10_counter_advances_on_failure : forall (self : E.t) (draws : list nat),
  let incremented := E.set_sample_count self (E.sample_count self + 1) in
  E.sample_count (fst (E.sample self draws)) = (E.sample_count self + 1)%Z /\
  (forall e,
     SB3.sample (W.replay_buffer (E.super self)) draws = Raise e ->
     E.sample self draws = (incremented, Raise e)) /\
  (forall samples e,
     SB3.sample (W.replay_buffer (E.super self)) draws = Ok samples ->
     W.reward_fn (E.super self)
       (to_numpy (SB3.s_observations samples)) (to_numpy (SB3.s_actions samples))
       (to_numpy (SB3.s_next_observations samples)) (to_numpy (SB3.s_dones samples))
     = Raise e ->
     E.sample self draws = (incremented, Raise e)).
Proof.
  intros self draws incremented. split; [|split].
  - apply E_sample_counter.
  - intros e H. apply E_sample_base_raises. now apply W_sample_storage_raises.
  - intros samples e Hs Hr. apply E_sample_base_raises.
    now apply W_sample_reward_fn_raises with (samples := samples).
Qed.

(** A budget of one call, spent by a call that raises: sampling the empty
    buffer fails and leaves the counter at 1; after five transitions were
    added, the reward function that raises fails the next call, which leaves
    the counter at 2. *)
Lemma C10_counter_advances_on_failure_witness :
  exists self,
    Example.fresh Example.failing_reward 1 = Ok self /\
    E.sample self [0]
    = (E.set_sample_count self 1, Raise (ValueError "low >= high")) /\
    exists self5,
      Example.add_all (fst (E.sample self [0])) [1; 2; 3; 4; 5]%float = Ok self5 /\
      E.sample self5 [0]
      = (E.set_sample_count self5 2, Raise (RuntimeError "reward network failed")).
Proof.
  eexists. split; [vm_compute; reflexivity|]. split.
  - match goal with
    | |- E.sample ?s ?d = _ =>
        apply (proj1 (proj2 (C10_counter_advances_on_failure s d)))
    end.
    vm_compute. reflexivity.
  - eexists. split; [vm_compute; reflexivity|].
    match goal with
    | |- E.sample ?s ?d = _ =>
        eapply (proj2 (proj2 (C10_counter_advances_on_failure s d)))
    end; vm_compute; reflexivity.
Defined.

(** ** C3: the base wrapper relabels with [reward_fn] *)

(** C3.  Whenever the storage hands out a batch and [reward_fn], applied to
    the batch's state, action, next-state and done fields, returns a reward
    batch: a call of [sample] that returns carries these rewards with the
    shape and on the device of the storage batch's reward field, and the call
    does return when the element counts agree. *)
Theorem C3_reward_is_reward_fn_of_batch :
  forall (self : W.t) (draws : list nat) samples r,
  SB3.sample (W.replay_buffer self) draws = Ok samples ->
  W.reward_fn self
    (to_numpy (SB3.s_observations samples)) (to_numpy (SB3.s_actions samples))
    (to_numpy (SB3.s_next_observations samples)) (to_numpy (SB3.s_dones samples))
  = Ok r ->
  let relabelled :=
    mkTensor (a_data r) (t_shape (SB3.s_rewards samples))
             (t_device (SB3.s_rewards samples)) in
  (forall out, W.sample self draws = Ok out -> SB3.s_rewards out = relabelled) /\
  (length (a_data r) = numel (t_shape (SB3.s_rewards samples)) ->
   W.sample self draws = Ok (with_rewards samples relabelled)).
Proof.
  intros self draws samples r Hs Hr relabelled. split.
  - intros out Hout. apply W_sample_inv in Hout.
    destruct Hout as [samples' [r' [Hs' [Hr' [_ Heq]]]]].
    rewrite Hs in Hs'. inversion Hs'; subst samples'.
    unfold call_reward_fn, _samples_to_reward_fn_input in Hr'. simpl in Hr'.
    rewrite Hr in Hr'. inversion Hr'; subst r'. subst out. reflexivity.
  - intro Hlen. now apply W_sample_returns.
Qed.

(** Three draws from the buffer holding 1..5, relabelled by the zero reward. *)
Lemma C3_reward_is_reward_fn_of_batch_witness :
  exists self samples,
    Example.five Example.zero_reward 3 = Ok self /\
    SB3.sample (W.replay_buffer (E.super self)) [0; 2; 4] = Ok samples /\
    W.sample (E.super self) [0; 2; 4]
    = Ok (with_rewards samples (mkTensor [0; 0; 0]%float [3; 1] cpu)).
Proof.
  eexists. eexists. split; [vm_compute; reflexivity|].
  split; [vm_compute; reflexivity|].
  match goal with
  | |- W.sample ?s ?d = Ok (with_rewards ?b _) =>
      refine (proj2 (@C3_reward_is_reward_fn_of_batch s d b
                       (mkArray [0; 0; 0]%float [3]) _ _) _)
  end; vm_compute; reflexivity.
Defined.

(** ** C4: the relabelling touches the reward field only *)

(** C4.  Every batch either wrapper's [sample] returns has the observation,
    action, next-observation and done tensors of the batch the storage's own
    [sample] returned for the same draw. *)
Theorem C4_only_reward_replaced :
  (forall (self : W.t) draws out,
     W.sample self draws = Ok out ->
     exists samples,
       SB3.sample (W.replay_buffer self) draws = Ok samples /\
       same_transitions out samples) /\
  (forall (self : E.t) draws out,
     snd (E.sample self draws) = Ok out ->
     exists samples,
       SB3.sample (W.replay_buffer (E.super self)) draws = Ok samples /\
       same_transitions out samples).
Proof.
  assert (HW : forall (self : W.t) draws out,
             W.sample self draws = Ok out ->
             exists samples,
               SB3.sample (W.replay_buffer self) draws = Ok samples /\
               same_transitions out samples).
  { intros self draws out H. apply W_sample_inv in H.
    destruct H as [samples [r [Hs [_ [_ Heq]]]]]. exists samples.
    split; [assumption|]. subst out. repeat split. }
  split; [exact HW|].
  intros self draws out H.
  destruct (Z_le_gt_dec (E.sample_count self + 1) (E.entropy_as_reward_samples self))
    as [Hle|Hgt].
  - destruct (E_sample_warmup_inv self draws Hle H) as [mid [raw [Hs [_ [_ Heq]]]]].
    destruct (HW _ _ _ Hs) as [samples [Hs' [Ho [Ha [Hn Hd]]]]].
    exists samples. split; [assumption|]. subst out. repeat split; assumption.
  - rewrite (E_sample_steady self draws Hgt) in H. simpl in H. now apply HW.
Qed.

(** A warmup batch of the entropy wrapper next to the storage's batch. *)
Lemma C4_only_reward_replaced_witness :
  snd (E.sample Example.five_zero [0; 2; 4]) = Ok Example.warmup_batch /\
  exists samples,
    SB3.sample (W.replay_buffer (E.super Example.five_zero)) [0; 2; 4] = Ok samples /\
    same_transitions Example.warmup_batch samples.
Proof.
  assert (Hout : snd (E.sample Example.five_zero [0; 2; 4]) = Ok Example.warmup_batch)
    by (vm_compute; reflexivity).
  split; [exact Hout|].
  exact (proj2 C4_only_reward_replaced Example.five_zero [0; 2; 4]
               Example.warmup_batch Hout).
Defined.

(** ** C5: [pos] and [full] are the storage's *)

(** C5.  Reading [pos] or [full] on the wrapper gives the storage's value;
    writing either through the wrapper writes the storage's field, so that a
    read after a write gives the value written; a write of one leaves the
    other as it was.  The entropy wrapper inherits the two properties. *)
Theorem C5_pos_full_proxy : forall (self : W.t) (eself : E.t) (v : Z) (b : bool),
  W.pos self = SB3.pos (W.replay_buffer self) /\
  W.full self = SB3.full (W.replay_buffer self) /\
  SB3.pos (W.replay_buffer (W.set_pos self v)) = v /\
  SB3.full (W.replay_buffer (W.set_full self b)) = b /\
  W.pos (W.set_pos self v) = v /\
  W.full (W.set_full self b) = b /\
  W.full (W.set_pos self v) = W.full self /\
  W.pos (W.set_full self b) = W.pos self /\
  E.pos eself = SB3.pos (W.replay_buffer (E.super eself)) /\
  E.full eself = SB3.full (W.replay_buffer (E.super eself)) /\
  E.pos (E.set_pos eself v) = v /\
  E.full (E.set_full eself b) = b.
Proof. intros. repeat split. Qed.

(** ** C8: [_get_samples] is disabled *)



(** ** C7: the constructor's two assertions *)

Lemma W_init_accepts : forall size os acts rf kw,
  is_Dict os = false ->
  exists self,
    W.__init__ size os acts ClsReplayBuffer rf kw = Ok self /\
    W.pos self = 0%Z /\ W.full self = false.
Proof.
  intros size os acts rf kw Hd. unfold W.__init__. simpl. rewrite Hd. simpl.
  eexists. split; [reflexivity|]. split; reflexivity.
Qed.

Lemma W_init_rejects_class : forall size os acts cls rf kw,
  cls <> ClsReplayBuffer ->
  W.__init__ size os acts cls rf kw
  = Raise (AssertionError "only ReplayBuffer is supported").
Proof.
  intros size os acts cls rf kw H. unfold W.__init__.
  now rewrite (class_is_neq H).
Qed.

Lemma W_init_rejects_dict : forall size os acts cls rf kw,
  is_Dict os = true ->
  exists msg, W.__init__ size os acts cls rf kw = Raise (AssertionError msg).
Proof.
  intros size os acts cls rf kw H. unfold W.__init__.
  destruct (class_is cls ClsReplayBuffer); simpl.
  - rewrite H. simpl. eauto.
  - eauto.
Qed.

(** C7.  The constructor of either wrapper raises an assertion error, and so
    yields no buffer to add to, whenever the storage class is not the
    supported one or the observation space is a [Dict]; in every other case
    it returns a buffer, which is empty. *)
Theorem C7_construction_guard :
  forall size os acts cls (rf : RewardFn) kw N k,
  ((cls <> ClsReplayBuffer \/ is_Dict os = true) ->
     (exists msg,
        W.__init__ size os acts cls rf kw = Raise (AssertionError msg)) /\
     (exists msg,
        E.__init__ size os acts cls rf N k kw = Raise (AssertionError msg))) /\
  (cls = ClsReplayBuffer -> is_Dict os = false ->
     (exists self,
        W.__init__ size os acts cls rf kw = Ok self /\
        W.pos self = 0%Z /\ W.full self = false) /\
     (exists self,
        E.__init__ size os acts cls rf N k kw = Ok self /\
        E.pos self = 0%Z /\ E.full self = false /\ E.sample_count self = 0%Z)).
Proof.
  intros size os acts cls rf kw N k. split.
  - intro H.
    assert (Hw : exists msg,
               W.__init__ size os acts cls rf kw = Raise (AssertionError msg)).
    { destruct H as [H|H].
      - rewrite (@W_init_rejects_class size os acts cls rf kw H). eauto.
      - now apply W_init_rejects_dict. }
    split; [exact Hw|].
    destruct Hw as [msg Hw]. exists msg. unfold E.__init__. now rewrite Hw.
  - intros Hc Hd. subst cls.
    destruct (@W_init_accepts size os acts rf kw Hd) as [self [Hs [Hp Hf]]].
    split.
    + exists self. auto.
    + eexists. unfold E.__init__. rewrite Hs. simpl.
      split; [reflexivity|]. unfold E.pos, E.full. simpl. auto.
Qed.

(** A [Dict] observation space with the supported class is refused; a [Box]
    with the same class is accepted. *)
Lemma C7_construction_guard_witness :
  (exists msg,
     W.__init__ 10 (Dict ["image"; "state"]) (Box [1]) ClsReplayBuffer
                Example.zero_reward (SB3.mkKwargs None)
     = Raise (AssertionError msg)) /\
  (exists self,
     W.__init__ 10 (Box [1]) (Box [1]) ClsReplayBuffer
                Example.zero_reward (SB3.mkKwargs None) = Ok self /\
     W.pos self = 0%Z /\ W.full self = false).
Proof.
  split.
  - exact (proj1 (proj1 (C7_construction_guard
                           10 (Dict ["image"; "state"]) (Box [1]) ClsReplayBuffer
                           Example.zero_reward (SB3.mkKwargs None) 0 None)
                        (or_intror eq_refl))).
  - exact (proj1 (proj2 (C7_construction_guard
                           10 (Box [1]) (Box [1]) ClsReplayBuffer
                           Example.zero_reward (SB3.mkKwargs None) 0 None)
                        eq_refl eq_refl)).
Defined.

(** ** C9: the class test is an identity test *)

(** C9.  The constructor returns a buffer for the storage class itself only:
    with any other class, a strict subclass of the storage class included,
    either wrapper's constructor raises the assertion error of the class
    test. *)
Theorem C9_exact_class_only :
  forall size os acts cls (rf : RewardFn) kw N k,
  cls <> ClsReplayBuffer ->
  W.__init__ size os acts cls rf kw
  = Raise (AssertionError "only ReplayBuffer is supported") /\
  E.__init__ size os acts cls rf N k kw
  = Raise (AssertionError "only ReplayBuffer is supported").
Proof.
  intros size os acts cls rf kw N k H.
  pose proof (@W_init_rejects_class size os acts cls rf kw H) as Hw.
  split; [exact Hw|]. unfold E.__init__. now rewrite Hw.
Qed.

(** A strict subclass of the storage class is refused. *)
Lemma C9_exact_class_only_witness :
  issubclass_ReplayBuffer DictReplayBuffer = true /\
  W.__init__ 10 (Box [1]) (Box [1]) DictReplayBuffer Example.zero_reward
             (SB3.mkKwargs None)
  = Raise (AssertionError "only ReplayBuffer is supported") /\
  E.__init__ 10 (Box [1]) (Box [1]) DictReplayBuffer Example.zero_reward 3 None
             (SB3.mkKwargs None)
  = Raise (AssertionError "only ReplayBuffer is supported").
Proof.
  split; [reflexivity|].
  apply C9_exact_class_only. discriminate.
Defined.

(** ** C1: the neighbour pool of the entropy estimate *)

(** C1.  The code evaluated on the buffer of capacity 10 that holds the
    observations 1..5, in warmup, for the draws 0, 2, 4 (observations 1, 3,
    5) and [k = 2].  The storage's occupied observations are 1..5, but the
    pool handed to the entropy estimate is the first five entries of the
    wrapper's own array, which nothing ever writes: five zeros.  The raw
    entropies are therefore 1, 3, 5 (the distances to zero) where the
    occupied observations give 1, 1, 1, and the batch returned carries the
    normalisation of the former. *)
Theorem C1_neighbour_pool_is_not_the_storage :
  let self := Example.five_zero in
  let storage := W.replay_buffer (E.super self) in
  let sampled := mkTensor [1; 3; 5]%float [3; 1; 1] cpu in
  let raw := mkTensor [1; 3; 5]%float [3; 1] cpu in
  Example.five Example.zero_reward 3 = Ok self /\
  SB3.occupied_observations storage
  = mkArray [1; 2; 3; 4; 5]%float [5; 1; 1] /\
  E.all_obs self = mkArray [0; 0; 0; 0; 0]%float [5; 1; 1] /\
  unsqueeze1 (SB3.s_observations Example.warmup_batch) = sampled /\
  util.compute_state_entropy sampled (SB3.occupied_observations storage) 2
  = Ok (mkTensor [1; 1; 1]%float [3; 1] cpu) /\
  util.compute_state_entropy sampled (E.all_obs self) (E.k self) = Ok raw /\
  snd (E.sample self [0; 2; 4]) = Ok Example.warmup_batch /\
  t_data (SB3.s_rewards Example.warmup_batch)
  = normalized (util.update (E.entropy_stats self) raw) (t_data raw).
Proof. vm_compute. repeat split. Qed.

(** ** C6: normalisation by the running statistics *)

(** C6, as the code has it.  In a warmup call that returns a batch, the
    statistics are first updated with the raw entropy batch, and each reward
    is the raw entropy minus the updated mean, divided by the updated
    standard deviation; the division is the plain floating-point one, with no
    epsilon added and no test of the divisor.  The reward keeps the shape and
    the device of the reward field it replaces. *)
Theorem C6_update_then_normalize : forall (self : E.t) (draws : list nat) out,
  (E.sample_count self + 1 <= E.entropy_as_reward_samples self)%Z ->
  snd (E.sample self draws) = Ok out ->
  exists samples raw,
    W.sample (E.super self) draws = Ok samples /\
    util.compute_state_entropy (unsqueeze1 (SB3.s_observations samples))
                               (E.all_obs self) (E.k self) = Ok raw /\
    let stats := util.update (E.entropy_stats self) raw in
    E.entropy_stats (fst (E.sample self draws)) = stats /\
    t_data (SB3.s_rewards out)
    = map (fun x => ((x - util.mean stats) / util.std stats)%float) (t_data raw) /\
    t_shape (SB3.s_rewards out) = t_shape (SB3.s_rewards samples) /\
    t_device (SB3.s_rewards out) = t_device (SB3.s_rewards samples).
Proof.
  intros self draws out Hc Hout.
  destruct (E_sample_warmup_inv self draws Hc Hout)
    as [samples [raw [Hs [Hraw [Hstats Heq]]]]].
  exists samples, raw. split; [assumption|]. split; [assumption|].
  subst out. simpl. repeat split. exact Hstats.
Qed.

(** The first call on the buffer holding 1..5, for the draws 0, 2, 4. *)
Lemma C6_update_then_normalize_witness :
  exists samples raw,
    W.sample (E.super Example.five_zero) [0; 2; 4] = Ok samples /\
    util.compute_state_entropy (unsqueeze1 (SB3.s_observations samples))
      (E.all_obs Example.five_zero) (E.k Example.five_zero) = Ok raw /\
    let stats := util.update (E.entropy_stats Example.five_zero) raw in
    E.entropy_stats (fst (E.sample Example.five_zero [0; 2; 4])) = stats /\
    t_data (SB3.s_rewards Example.warmup_batch)
    = map (fun x => ((x - util.mean stats) / util.std stats)%float) (t_data raw) /\
    t_shape (SB3.s_rewards Example.warmup_batch) = t_shape (SB3.s_rewards samples) /\
    t_device (SB3.s_rewards Example.warmup_batch) = t_device (SB3.s_rewards samples).
Proof.
  apply (@C6_update_then_normalize Example.five_zero [0; 2; 4] Example.warmup_batch).
  - vm_compute. discriminate.
  - vm_compute. reflexivity.
Defined.

(** The claim's guard is absent: a warmup call that draws a single
    transition updates the statistics to a standard deviation of zero and
    returns, without any error, a batch whose reward is NaN. *)
Lemma C6_zero_std_gives_nan :
  let self := Example.five_zero in
  (E.sample_count self + 1 <=? E.entropy_as_reward_samples self)%Z = true /\
  util.std (E.entropy_stats (fst (E.sample self [7]))) = 0%float /\
  exists out,
    snd (E.sample self [7]) = Ok out /\
    t_data (SB3.s_rewards out) = [PrimFloat.nan] /\
    forallb PrimFloat.is_nan (t_data (SB3.s_rewards out)) = true.
Proof.
  vm_compute. split; [reflexivity|]. split; [reflexivity|].
  eexists. split; [reflexivity|]. split; reflexivity.
Qed.

(** * Further properties of the wrappers *)

(** ** When the base wrapper's [sample] returns *)

(** X1.  The base wrapper's [sample] returns a batch exactly when the
    storage hands out a batch, the reward function returns for it, and the
    rewards it returns have as many elements as the batch's reward field. *)
Theorem X1_sample_returns_iff : forall (self : W.t) (draws : list nat),
  is_ok (W.sample self draws) = true <->
  exists samples r,
    SB3.sample (W.replay_buffer self) draws = Ok samples /\
    W.reward_fn self
      (to_numpy (SB3.s_observations samples)) (to_numpy (SB3.s_actions samples))
      (to_numpy (SB3.s_next_observations samples)) (to_numpy (SB3.s_dones samples))
    = Ok r /\
    length (a_data r) = numel (t_shape (SB3.s_rewards samples)).
Proof.
  intros self draws. split.
  - intro H. destruct (W.sample self draws) as [out|e] eqn:Hout; [|discriminate].
    apply W_sample_inv in Hout.
    destruct Hout as [samples [r [Hs [Hr [Hlen _]]]]]. exists samples, r. auto.
  - intros [samples [r [Hs [Hr Hlen]]]].
    now rewrite (W_sample_returns self draws Hs Hr Hlen).
Qed.

(** X2.  The base wrapper translates no error: what the storage's [sample]
    raises, or else what the reward function raises, is what [sample]
    raises; and rewards with the wrong number of elements make the call
    raise instead of returning a batch. *)
Theorem X2_sample_errors_pass_through : forall (self : W.t) (draws : list nat),
  (forall e,
     SB3.sample (W.replay_buffer self) draws = Raise e ->
     W.sample self draws = Raise e) /\
  (forall samples,
     SB3.sample (W.replay_buffer self) draws = Ok samples ->
     let answer :=
       W.reward_fn self
         (to_numpy (SB3.s_observations samples)) (to_numpy (SB3.s_actions samples))
         (to_numpy (SB3.s_next_observations samples))
         (to_numpy (SB3.s_dones samples)) in
     (forall e, answer = Raise e -> W.sample self draws = Raise e) /\
     (forall r, answer = Ok r ->
        length (a_data r) <> numel (t_shape (SB3.s_rewards samples)) ->
        is_ok (W.sample self draws) = false)).
Proof.
  intros self draws. split.
  - intros e H. now apply W_sample_storage_raises.
  - intros samples Hs answer. split.
    + intros e Hr. now apply W_sample_reward_fn_raises with (samples := samples).
    + intros r Hr Hlen.
      destruct (W.sample self draws) as [out|e] eqn:Hout; [|reflexivity].
      apply W_sample_inv in Hout.
      destruct Hout as [samples' [r' [Hs' [Hr' [Hlen' _]]]]].
      rewrite Hs in Hs'. inversion Hs'; subst samples'.
      unfold call_reward_fn, _samples_to_reward_fn_input in Hr'. simpl in Hr'.
      fold answer in Hr'. rewrite Hr in Hr'. inversion Hr'; subst r'. contradiction.
Qed.

(** ** The recorded rewards are never used *)

(** X3.  Whatever rewards the storage recorded at [add], the base wrapper's
    [sample] gives the same result: the reward function does not see them
    and the batch returned does not carry them. *)
Theorem X3_stored_rewards_are_ignored :
  forall (self : W.t) (recorded : NdArray) (draws : list nat),
  W.sample (W.mk (set_stored_rewards (W.replay_buffer self) recorded)
                 (W.reward_fn self) (W.inherited self)) draws
  = W.sample self draws.
Proof.
  intros self recorded draws. unfold W.sample, SB3.sample, SB3.upper_bound. simpl.
  destruct (SB3.full (W.replay_buffer self)); simpl;
    match goal with
    | |- context [(?x <=? 0)%Z] => destruct (x <=? 0)%Z
    end; reflexivity.
Qed.

(** ** After the warmup *)

Lemma step_steady : forall self c,
  (E.entropy_as_reward_samples self <= E.sample_count self)%Z ->
  E.entropy_stats (step self c) = E.entropy_stats self /\
  (E.entropy_as_reward_samples (step self c) <= E.sample_count (step self c))%Z.
Proof.
  intros self c H. destruct (step_counter self c) as [Hc HN]. split.
  - destruct c as [tr|draws|p|f]; simpl; try reflexivity.
    + unfold E.add. destruct (W.add (E.super self) tr); reflexivity.
    + rewrite E_sample_steady by lia. reflexivity.
  - rewrite Hc, HN. destruct (is_sample c); lia.
Qed.

Lemma exec_steady : forall calls self,
  (E.entropy_as_reward_samples self <= E.sample_count self)%Z ->
  E.entropy_stats (exec self calls) = E.entropy_stats self.
Proof.
  induction calls as [|c calls IH]; intros self H; [reflexivity|].
  unfold exec in *. simpl. destruct (step_steady self c H) as [Hs Hle].
  now rewrite (IH _ Hle).
Qed.

(** X4.  Once the counter has reached the warmup budget, no call changes the
    running statistics any more: they stay as the last warmup call left
    them, whatever is added or sampled afterwards. *)
Theorem X4_statistics_frozen_after_warmup : forall (self : E.t) (calls : list Call),
  (E.entropy_as_reward_samples self <= E.sample_count self)%Z ->
  E.entropy_stats (exec self calls) = E.entropy_stats self.
Proof. intros self calls H. now apply exec_steady. Qed.

(** Three calls use up the budget of 3; a further call of [sample] and a
    further [add] leave the statistics alone. *)
Lemma X4_statistics_frozen_after_warmup_witness :
  let used := exec Example.five_zero [CallSample [0]; CallSample [1; 2]; CallSample [3]] in
  E.entropy_stats
    (exec used [CallSample [0; 4]; CallAdd (Example.transition 6); CallSample [5]])
  = E.entropy_stats used.
Proof.
  intro used. apply X4_statistics_frozen_after_warmup.
  vm_compute. discriminate.
Defined.

(** ** The warmup reward does not depend on the reward function's answer *)

(** X5.  In a warmup call the reward function is called but its answer is
    discarded: with any other reward function for which the call returns as
    well, the batch returned and the statistics left behind are the same. *)
Theorem X5_warmup_ignores_reward_values :
  forall (self : E.t) (f : RewardFn) (draws : list nat) out out',
  let other := E.set_super self (set_reward_fn (E.super self) f) in
  (E.sample_count self + 1 <= E.entropy_as_reward_samples self)%Z ->
  snd (E.sample self draws) = Ok out ->
  snd (E.sample other draws) = Ok out' ->
  out = out' /\
  E.entropy_stats (fst (E.sample self draws))
  = E.entropy_stats (fst (E.sample other draws)).
Proof.
  intros self f draws out out' other Hc Hout Hout'.
  assert (Hc' : (E.sample_count other + 1 <= E.entropy_as_reward_samples other)%Z)
    by exact Hc.
  destruct (E_sample_warmup_inv self draws Hc Hout)
    as [s1 [raw1 [Hs1 [Hraw1 [Hst1 Heq1]]]]].
  destruct (E_sample_warmup_inv other draws Hc' Hout')
    as [s2 [raw2 [Hs2 [Hraw2 [Hst2 Heq2]]]]].
  apply W_sample_inv in Hs1. destruct Hs1 as [b1 [r1 [Hb1 [_ [_ Hw1]]]]].
  apply W_sample_inv in Hs2. destruct Hs2 as [b2 [r2 [Hb2 [_ [_ Hw2]]]]].
  simpl in Hb2. rewrite Hb1 in Hb2. inversion Hb2; subst b2. clear Hb2.
  subst s1 s2. simpl in Hraw1, Hraw2.
  change (E.all_obs other) with (E.all_obs self) in Hraw2.
  change (E.k other) with (E.k self) in Hraw2.
  rewrite Hraw1 in Hraw2. inversion Hraw2; subst raw2. clear Hraw2.
  split.
  - subst out out'. reflexivity.
  - rewrite Hst1, Hst2. reflexivity.
Qed.

(** The buffer holding 1..5 gives the same warmup batch with the reward
    function that answers 1 everywhere as with the one that answers 0. *)
Lemma X5_warmup_ignores_reward_values_witness :
  Example.warmup_batch = Example.warmup_batch /\
  E.entropy_stats (fst (E.sample Example.five_zero [0; 2; 4]))
  = E.entropy_stats
      (fst (E.sample (E.set_super Example.five_zero
                        (set_reward_fn (E.super Example.five_zero) unit_reward))
                     [0; 2; 4])).
Proof.
  apply (@X5_warmup_ignores_reward_values Example.five_zero unit_reward [0; 2; 4]
           Example.warmup_batch Example.warmup_batch).
  - vm_compute. discriminate.
  - vm_compute. reflexivity.
  - vm_compute. reflexivity.
Defined.

(** ** What the entropy estimate is computed against *)

Lemma py_slice_stop_le : forall n stop, py_slice_stop n stop <= n.
Proof.
  intros n stop. unfold py_slice_stop. destruct (stop <? 0)%Z eqn:H; [|lia].
  apply Z.ltb_lt in H. lia.
Qed.

Lemma slice_to_zeros : forall n item stop,
  slice_to (zeros (n :: item)) stop = zeros (py_slice_stop n stop :: item).
Proof.
  intros n item stop. unfold slice_to, zeros. simpl hd. simpl tl. simpl a_data.
  f_equal. rewrite firstn_repeat. f_equal.
  unfold row_size. simpl. pose proof (py_slice_stop_le n stop). nia.
Qed.

(** X6.  On a buffer as its constructor returns it, after any sequence of
    calls, the array handed to the entropy estimate as the pool of neighbours
    is an array of zeros: as many entries as the cursor and the flag of the
    storage say are occupied, none of them an observation that was added. *)
Theorem X6_neighbour_pool_is_zeros :
  forall size os acts cls (rf : RewardFn) N k kw self (calls : list Call),
  E.__init__ size os acts cls rf N k kw = Ok self ->
  let now := exec self calls in
  let C := Z.to_nat (Z.max size 1) in
  let occupied := if E.full now then C else py_slice_stop C (E.pos now) in
  E.all_obs now = zeros (occupied :: 1 :: SB3.get_obs_shape os).
Proof.
  intros size os acts cls rf N k kw self calls H now C occupied.
  unfold E.__init__ in H. apply bind_Ok_inv in H. destruct H as [base [Hb H]].
  inversion H; subst self; clear H. apply init_inherited in Hb.
  assert (Hinh : SB3.observations (W.inherited (E.super now))
                 = zeros (C :: 1 :: SB3.get_obs_shape os)).
  { unfold now. rewrite exec_inherited. exact Hb. }
  unfold occupied, E.all_obs, E.full, E.pos. rewrite Hinh.
  destruct (W.full (E.super now)); [reflexivity|]. apply slice_to_zeros.
Qed.

(** After the observations 1..5 were added the pool is five zeros. *)
Lemma X6_neighbour_pool_is_zeros_witness :
  exists self,
    Example.fresh Example.zero_reward 3 = Ok self /\
    E.all_obs (exec self (map CallAdd (map Example.transition [1; 2; 3; 4; 5]%float)))
    = zeros [5; 1; 1].
Proof.
  eexists. split; [vm_compute; reflexivity|].
  exact (X6_neighbour_pool_is_zeros
           10 (Box [1]) (Box [1]) ClsReplayBuffer Example.zero_reward 3
           (Some 2%Z) (SB3.mkKwargs None)
           (map CallAdd (map Example.transition [1; 2; 3; 4; 5]%float)) eq_refl).
Defined.

(** ** A budget of zero *)

(** X7.  With a warmup budget of zero or less there is no warmup: from the
    first call on, [sample] returns what the base wrapper's [sample] returns
    and only counts the call, and the running statistics are never
    updated. *)
Theorem X7_no_budget_no_warmup :
  forall size os acts cls (rf : RewardFn) N k kw self (calls : list Call)
         (draws : list nat),
  E.__init__ size os acts cls rf N k kw = Ok self ->
  (N <= 0)%Z ->
  let now := exec self calls in
  E.sample now draws
  = (E.set_sample_count now (E.sample_count now + 1),
     W.sample (E.super now) draws) /\
  E.entropy_stats now = util.RunningMeanAndVar_init.
Proof.
  intros size os acts cls rf N k kw self calls draws H HN now.
  unfold E.__init__ in H. apply bind_Ok_inv in H. destruct H as [base [_ H]].
  inversion H; subst self; clear H.
  destruct (exec_counter calls
              (E.mk base 0 (match k with Some k0 => k0 | None => 5%Z end)
                    util.RunningMeanAndVar_init N)) as [Hc Hn].
  fold now in Hc, Hn. simpl in Hc, Hn.
  pose proof (count_samples_nonneg calls) as Hpos. split.
  - apply E_sample_steady. rewrite Hc, Hn. lia.
  - unfold now. rewrite exec_steady; [reflexivity | simpl; lia].
Qed.

(** A buffer built with budget 0, filled with 1..5: its first call of
    [sample] is a plain relabelling. *)
Lemma X7_no_budget_no_warmup_witness :
  exists self,
    Example.fresh Example.zero_reward 0 = Ok self /\
    let now := exec self (map CallAdd (map Example.transition [1; 2; 3; 4; 5]%float)) in
    E.sample now [0; 2; 4]
    = (E.set_sample_count now (E.sample_count now + 1),
       W.sample (E.super now) [0; 2; 4]) /\
    E.entropy_stats now = util.RunningMeanAndVar_init.
Proof.
  eexists. split; [vm_compute; reflexivity|].
  apply (@X7_no_budget_no_warmup
           10 (Box [1]) (Box [1]) ClsReplayBuffer Example.zero_reward 0
           (Some 2%Z) (SB3.mkKwargs None) _
           (map CallAdd (map Example.transition [1; 2; 3; 4; 5]%float)) [0; 2; 4]).
  - vm_compute. reflexivity.
  - lia.
Defined.

(** ** A failed call leaves the statistics alone *)

(** X8.  When a call of the entropy wrapper's [sample] raises, in whichever
    phase, the running statistics are those of before the call: the counter
    is the only attribute a failed call changes. *)
Theorem X8_failed_call_keeps_statistics :
  forall (self : E.t) (draws : list nat) e,
  snd (E.sample self draws) = Raise e ->
  fst (E.sample self draws) = E.set_sample_count self (E.sample_count self + 1).
Proof.
  intros self draws e H.
  destruct (W.sample (E.super self) draws) as [samples|e'] eqn:Hs.
  - destruct (Z_le_gt_dec (E.sample_count self + 1)
                          (E.entropy_as_reward_samples self)) as [Hle|Hgt].
    + destruct (util.compute_state_entropy
                  (unsqueeze1 (SB3.s_observations samples))
                  (E.all_obs self) (E.k self)) as [raw|e'] eqn:Hraw.
      * pose proof (E_sample_warmup self draws Hle Hs Hraw) as Hw. simpl in Hw.
        rewrite Hw in H. discriminate.
      * now rewrite (E_sample_warmup_raises self draws Hle Hs Hraw).
    + now rewrite (E_sample_steady self draws Hgt).
  - now rewrite (E_sample_base_raises self draws Hs).
Qed.

(** With [k = 7] there are too few neighbours among five entries: the warmup
    call raises, and the buffer differs by the counter only. *)
Lemma X8_failed_call_keeps_statistics_witness :
  let self := E.mk (E.super Example.five_zero) 0 7 util.RunningMeanAndVar_init 3 in
  fst (E.sample self [0; 2; 4]) = E.set_sample_count self (0 + 1).
Proof.
  intro self.
  apply (@X8_failed_call_keeps_statistics self [0; 2; 4]
           (RuntimeError "k is out of range for the neighbour pool")).
  vm_compute. reflexivity.
Defined.

(** * Properties of the environment ingredient *)

Module EnvFacts.
Import environment.

Lemma getitem_raises : forall (V : Type) (d : PyDict V) key e,
  getitem d key = Raised e -> e = KeyError key.
Proof.
  induction d as [|[k v] d IH]; simpl; intros key e H.
  - now inversion H.
  - destruct (String.eqb k key); [discriminate | now apply IH].
Qed.

End EnvFacts.

(** X9.  Without a ["gym_id"] entry in the environment-name configuration,
    a [with] statement on either context manager raises [KeyError] for that
    key; no environment is made and the block is not run. *)
Theorem X9_missing_gym_id :
  forall c cfg kw (A : Type)
         (body : environment.VecEnv -> environment.World ->
                 environment.World * environment.outcome A) w e,
  environment.getitem (environment.environment_name cfg) "gym_id"
  = environment.Raised e ->
  environment.with_ (environment.make_venv c cfg kw) body w
  = (w, environment.Raised (environment.KeyError "gym_id")) /\
  environment.with_ (environment.make_rollout_venv c cfg) body w
  = (w, environment.Raised (environment.KeyError "gym_id")).
Proof.
  intros c cfg kw A body w e H.
  pose proof (EnvFacts.getitem_raises _ _ H) as He. subst e.
  unfold environment.with_, environment.make_venv, environment.make_rollout_venv.
  rewrite H. split; reflexivity.
Qed.

Lemma X9_missing_gym_id_witness :
  let cfg := environment.config [("gym", "seals/CartPole-v0")] [("log_dir", "output")] 0 in
  environment.with_
    (environment.make_venv environment.sample_collaborators cfg [])
    environment.stepping_block []
  = ([], environment.Raised (environment.KeyError "gym_id")) /\
  environment.with_
    (environment.make_rollout_venv environment.sample_collaborators cfg)
    environment.stepping_block []
  = ([], environment.Raised (environment.KeyError "gym_id")).
Proof.
  intro cfg.
  apply (@X9_missing_gym_id environment.sample_collaborators cfg [] nat
           environment.stepping_block [] (environment.KeyError "gym_id")).
  reflexivity.
Defined.

(** X10.  [make_venv] also needs the ["log_dir"] entry of the common
    configuration: without it the statement raises [KeyError] for that key
    before any environment is made.  [make_rollout_venv] does not read the
    common configuration: it does the same whatever that configuration
    holds. *)
Theorem X10_missing_log_dir :
  forall c cfg kw (A : Type)
         (body : environment.VecEnv -> environment.World ->
                 environment.World * environment.outcome A) w id e,
  environment.getitem (environment.environment_name cfg) "gym_id"
  = environment.Returned id ->
  environment.getitem (environment.common cfg) "log_dir" = environment.Raised e ->
  environment.with_ (environment.make_venv c cfg kw) body w
  = (w, environment.Raised (environment.KeyError "log_dir")) /\
  forall common',
    environment.make_rollout_venv c
      (environment.mkConfig (environment.environment_name cfg) common'
         (environment.num_vec cfg) (environment.cfg_parallel cfg)
         (environment.cfg_max_episode_steps cfg)
         (environment.cfg_env_make_kwargs cfg) (environment._rnd cfg))
    = environment.make_rollout_venv c cfg.
Proof.
  intros c cfg kw A body w id e Hid Hdir.
  pose proof (EnvFacts.getitem_raises _ _ Hdir) as He. subst e. split.
  - unfold environment.with_, environment.make_venv. now rewrite Hid, Hdir.
  - intro common'. reflexivity.
Qed.

Lemma X10_missing_log_dir_witness :
  let cfg := environment.config [("gym_id", "seals/CartPole-v0")] [] 0 in
  environment.with_
    (environment.make_venv environment.sample_collaborators cfg [])
    environment.stepping_block []
  = ([], environment.Raised (environment.KeyError "log_dir")).
Proof.
  intro cfg.
  exact (proj1 (@X10_missing_log_dir environment.sample_collaborators cfg [] nat
                  environment.stepping_block [] "seals/CartPole-v0"
                  (environment.KeyError "log_dir") eq_refl eq_refl)).
Defined.

(** ** Making and closing the environment *)

(** X11.  When [util.make_vec_env] raises, the exception leaves the [with]
    statement as it is: the block is not run and nothing is closed.  This
    holds for both context managers. *)
Theorem X11_creation_failure :
  forall c cfg kw (A : Type)
         (body : environment.VecEnv -> environment.World ->
                 environment.World * environment.outcome A) w id dir,
  environment.getitem (environment.environment_name cfg) "gym_id"
  = environment.Returned id ->
  environment.getitem (environment.common cfg) "log_dir"
  = environment.Returned dir ->
  (forall e,
     environment.spawn c (environment.venv_args cfg id dir kw)
     = environment.Raised e ->
     environment.with_ (environment.make_venv c cfg kw) body w
     = (w ++ [environment.EvMake (environment.venv_args cfg id dir kw)],
        environment.Raised e)) /\
  (forall e,
     environment.spawn c (environment.rollout_args cfg id)
     = environment.Raised e ->
     environment.with_ (environment.make_rollout_venv c cfg) body w
     = (w ++ [environment.EvMake (environment.rollout_args cfg id)],
        environment.Raised e)).
Proof.
  intros c cfg kw A body w id dir Hid Hdir. split; intros e He.
  - unfold environment.with_, environment.make_venv, environment.make_vec_env.
    now rewrite Hid, Hdir, He.
  - unfold environment.with_, environment.make_rollout_venv,
      environment.make_vec_env.
    now rewrite Hid, He.
Qed.

(** No environment can be made for zero environments asked for. *)
Lemma X11_creation_failure_witness :
  let cfg :=
    environment.mkConfig [("gym_id", "seals/CartPole-v0")] [("log_dir", "output")]
                         0 true None [] 0 in
  environment.with_
    (environment.make_venv environment.sample_collaborators cfg [])
    environment.stepping_block []
  = ([environment.EvMake
        (environment.venv_args cfg "seals/CartPole-v0" "output" [])],
     environment.Raised (environment.Exc "ValueError" "no environment")).
Proof.
  intro cfg.
  exact (proj1 (@X11_creation_failure environment.sample_collaborators cfg [] nat
                  environment.stepping_block [] "seals/CartPole-v0" "output"
                  eq_refl eq_refl) _ eq_refl).
Defined.

(** X12.  When [make_venv] has made the environment, the block runs with
    it, and the environment is closed once, after the block, whether the
    block returned or raised.  What leaves the statement is the block's own
    result or exception, unless closing raises. *)
Theorem X12_make_venv_closes :
  forall c cfg kw (A : Type)
         (body : environment.VecEnv -> environment.World ->
                 environment.World * environment.outcome A) w id dir venv,
  environment.getitem (environment.environment_name cfg) "gym_id"
  = environment.Returned id ->
  environment.getitem (environment.common cfg) "log_dir"
  = environment.Returned dir ->
  environment.spawn c (environment.venv_args cfg id dir kw)
  = environment.Returned venv ->
  let made := w ++ [environment.EvMake (environment.venv_args cfg id dir kw)] in
  environment.with_ (environment.make_venv c cfg kw) body w
  = (fst (body venv made) ++ [environment.EvClose venv],
     environment.after_close (environment.closing c venv) (snd (body venv made))).
Proof.
  intros c cfg kw A body w id dir venv Hid Hdir Hv made.
  unfold environment.with_, environment.make_venv, environment.make_vec_env.
  rewrite Hid, Hdir, Hv. simpl. fold made.
  destruct (body venv made) as [w2 [a|e]]; simpl;
    unfold environment.close; destruct (environment.closing c venv); reflexivity.
Qed.

(** A block that raises after stepping the environment: the environment is
    closed and the block's exception leaves the statement. *)
Lemma X12_make_venv_closes_witness :
  environment.with_
    (environment.make_venv environment.sample_collaborators
                           environment.sample_config [])
    environment.failing_block []
  = ([environment.EvMake
        (environment.venv_args environment.sample_config
                               "seals/CartPole-v0" "output" []);
      environment.EvUse (environment.Venv 8) "step";
      environment.EvClose (environment.Venv 8)],
     environment.Raised (environment.Exc "RuntimeError" "training diverged")).
Proof.
  exact (@X12_make_venv_closes environment.sample_collaborators
           environment.sample_config [] nat environment.failing_block []
           "seals/CartPole-v0" "output" (environment.Venv 8)
           eq_refl eq_refl eq_refl).
Defined.

(** X13.  [make_rollout_venv] brackets the block in the same way, and the
    environment it makes is asked for without a log directory and with the
    rollout-info wrapper as its only post-wrapper, whatever the
    configuration. *)
Theorem X13_make_rollout_venv_closes :
  forall c cfg (A : Type)
         (body : environment.VecEnv -> environment.World ->
                 environment.World * environment.outcome A) w id venv,
  environment.getitem (environment.environment_name cfg) "gym_id"
  = environment.Returned id ->
  environment.spawn c (environment.rollout_args cfg id)
  = environment.Returned venv ->
  let made := w ++ [environment.EvMake (environment.rollout_args cfg id)] in
  environment.with_ (environment.make_rollout_venv c cfg) body w
  = (fst (body venv made) ++ [environment.EvClose venv],
     environment.after_close (environment.closing c venv) (snd (body venv made)))
  /\ environment.log_dir (environment.rollout_args cfg id) = None
  /\ environment.post_wrappers (environment.rollout_args cfg id)
     = Some [environment.RolloutInfoWrapper].
Proof.
  intros c cfg A body w id venv Hid Hv made. split; [|split; reflexivity].
  unfold environment.with_, environment.make_rollout_venv,
    environment.make_vec_env.
  rewrite Hid, Hv. simpl. fold made.
  destruct (body venv made) as [w2 [a|e]]; simpl;
    unfold environment.close; destruct (environment.closing c venv); reflexivity.
Qed.

(** The [fast] configuration: two environments, stepped once and closed. *)
Lemma X13_make_rollout_venv_closes_witness :
  let cfg := environment.fast environment.sample_config in
  environment.with_
    (environment.make_rollout_venv environment.sample_collaborators cfg)
    environment.stepping_block []
  = ([environment.EvMake (environment.rollout_args cfg "seals/CartPole-v0");
      environment.EvUse (environment.Venv 2) "step";
      environment.EvClose (environment.Venv 2)],
     environment.Returned 1).
Proof.
  intro cfg.
  exact (proj1 (@X13_make_rollout_venv_closes environment.sample_collaborators
                  cfg nat environment.stepping_block []
                  "seals/CartPole-v0" (environment.Venv 2) eq_refl eq_refl)).
Defined.

(** ** One context manager inside the other *)

(** X14.  A rollout environment asked for inside a [make_venv] block: when
    making the rollout environment raises, the outer environment is still
    closed, and the exception leaves both statements (unless closing
    raises). *)
Theorem X14_outer_closed_when_inner_fails :
  forall c cfg kw (A : Type)
         (body : environment.VecEnv -> environment.VecEnv -> environment.World ->
                 environment.World * environment.outcome A) w id dir venv e,
  environment.getitem (environment.environment_name cfg) "gym_id"
  = environment.Returned id ->
  environment.getitem (environment.common cfg) "log_dir"
  = environment.Returned dir ->
  environment.spawn c (environment.venv_args cfg id dir kw)
  = environment.Returned venv ->
  environment.spawn c (environment.rollout_args cfg id) = environment.Raised e ->
  environment.with_ (environment.make_venv c cfg kw)
    (fun v => environment.with_ (environment.make_rollout_venv c cfg) (body v)) w
  = (w ++ [environment.EvMake (environment.venv_args cfg id dir kw);
           environment.EvMake (environment.rollout_args cfg id);
           environment.EvClose venv],
     environment.after_close (environment.closing c venv) (environment.Raised e)).
Proof.
  intros c cfg kw A body w id dir venv e Hid Hdir Hv He.
  unfold environment.with_, environment.make_venv, environment.make_rollout_venv,
    environment.make_vec_env.
  rewrite Hid, Hdir, Hv. simpl. rewrite He. simpl.
  unfold environment.close. rewrite <- !app_assoc. simpl.
  destruct (environment.closing c venv); reflexivity.
Qed.

(** X15.  When both environments are made, the block runs with both, and
    they are closed in the reverse order of their making: the rollout
    environment first, then the outer one. *)
Theorem X15_nested_close_order :
  forall c cfg kw (A : Type)
         (body : environment.VecEnv -> environment.VecEnv -> environment.World ->
                 environment.World * environment.outcome A) w id dir venv rollout,
  environment.getitem (environment.environment_name cfg) "gym_id"
  = environment.Returned id ->
  environment.getitem (environment.common cfg) "log_dir"
  = environment.Returned dir ->
  environment.spawn c (environment.venv_args cfg id dir kw)
  = environment.Returned venv ->
  environment.spawn c (environment.rollout_args cfg id)
  = environment.Returned rollout ->
  let made := w ++ [environment.EvMake (environment.venv_args cfg id dir kw);
                    environment.EvMake (environment.rollout_args cfg id)] in
  environment.with_ (environment.make_venv c cfg kw)
    (fun v => environment.with_ (environment.make_rollout_venv c cfg) (body v)) w
  = (fst (body venv rollout made)
       ++ [environment.EvClose rollout; environment.EvClose venv],
     environment.after_close (environment.closing c venv)
       (environment.after_close (environment.closing c rollout)
          (snd (body venv rollout made)))).
Proof.
  intros c cfg kw A body w id dir venv rollout Hid Hdir Hv Hr made.
  unfold environment.with_, environment.make_venv, environment.make_rollout_venv,
    environment.make_vec_env.
  rewrite Hid, Hdir, Hv. simpl. rewrite Hr. simpl.
  rewrite <- app_assoc. simpl. fold made.
  destruct (body venv rollout made) as [w2 [a|e]]; simpl;
    unfold environment.close;
    destruct (environment.closing c rollout); simpl;
    destruct (environment.closing c venv); simpl;
    rewrite <- ?app_assoc; reflexivity.
Qed.

Lemma X14_outer_closed_when_inner_fails_witness :
  let cfg := environment.sample_config in
  environment.with_ (environment.make_venv environment.logging_only cfg [])
    (fun v =>
       environment.with_ (environment.make_rollout_venv environment.logging_only cfg)
                         (environment.rollout_block v)) []
  = ([environment.EvMake (environment.venv_args cfg "seals/CartPole-v0" "output" []);
      environment.EvMake (environment.rollout_args cfg "seals/CartPole-v0");
      environment.EvClose (environment.Venv 1)],
     environment.Raised (environment.Exc "OSError" "no log directory")).
Proof.
  intro cfg.
  exact (@X14_outer_closed_when_inner_fails environment.logging_only cfg [] nat
           environment.rollout_block [] "seals/CartPole-v0" "output"
           (environment.Venv 1) (environment.Exc "OSError" "no log directory")
           eq_refl eq_refl eq_refl eq_refl).
Defined.

Lemma X15_nested_close_order_witness :
  let cfg := environment.sample_config in
  environment.with_ (environment.make_venv environment.two_handles cfg [])
    (fun v =>
       environment.with_ (environment.make_rollout_venv environment.two_handles cfg)
                         (environment.rollout_block v)) []
  = ([environment.EvMake (environment.venv_args cfg "seals/CartPole-v0" "output" []);
      environment.EvMake (environment.rollout_args cfg "seals/CartPole-v0");
      environment.EvUse (environment.Venv 1) "step";
      environment.EvUse (environment.Venv 2) "rollout";
      environment.EvClose (environment.Venv 2);
      environment.EvClose (environment.Venv 1)],
     environment.Returned 1).
Proof.
  intro cfg.
  exact (@X15_nested_close_order environment.two_handles cfg [] nat
           environment.rollout_block [] "seals/CartPole-v0" "output"
           (environment.Venv 1) (environment.Venv 2)
           eq_refl eq_refl eq_refl eq_refl).
Defined.
